(** * aerotrace.models.engine: cylinder readings and engine snapshots

    A shallow embedding of [src/aerotrace/models/engine.py] together with
    the fragment of Python's dynamic semantics that the module relies on:
    dynamically typed values, exceptions, rich comparison of numbers,
    subtraction, list subscripting and the builtins [min] and [max].

    Layout: the Python fragment ([Module Py]), then the three classes of
    the module, then the properties of each class. *)

From Stdlib Require Import ZArith QArith String List Bool Lia Permutation.
From Stdlib Require Import SpecFloat.
Import ListNotations.

Local Open Scope Z_scope.

(* ================================================================== *)
(** ** The Python fragment *)
(* ================================================================== *)

Module Py.

(** IEEE 754 binary64, the format of a Python [float]. *)
Definition prec : Z := 53.
Definition emax : Z := 1024.

(** A Python object, as far as this module can tell objects apart.
    [VStr] holds the UTF-8 bytes of a [str]. *)
Inductive PyVal : Type :=
| VNone
| VBool (b : bool)
| VInt (z : Z)
| VFloat (f : spec_float)
| VStr (s : string).

(** The exceptions that the modelled code can raise. *)
Inductive PyErr : Type :=
| ValueError (msg : string)
| TypeError
| IndexError
| OverflowError
| AttributeError.

(** A computation that returns a value or raises. *)
Inductive Result (A : Type) : Type :=
| Ok (a : A)
| Raise (e : PyErr).

Arguments Ok {A} a.
Arguments Raise {A} e.

Definition bind {A B : Type} (c : Result A) (k : A -> Result B) : Result B :=
  match c with
  | Ok a => k a
  | Raise e => Raise e
  end.

Notation "x <- c ;; k" := (bind c (fun x => k))
  (at level 61, c at next level, right associativity).

(** *** Numbers

    Python compares an [int] with a [float] exactly, and two floats as
    IEEE 754 does. Both are the comparison of the denoted numbers, so a
    number is sent to its denotation: a rational, an infinity, or NaN. *)

Inductive xnum : Type :=
| XNaN
| XInf (neg : bool)
| XFin (q : Q).

(** The rational [(-1)^s * m * 2^e]. *)
Definition F2Q (s : bool) (m : positive) (e : Z) : Q :=
  match e with
  | Zneg p => Qmake (cond_Zopp s (Zpos m)) (2 ^ p)
  | _ => inject_Z (cond_Zopp s (Zpos m) * 2 ^ e)
  end.

Definition float_denote (f : spec_float) : xnum :=
  match f with
  | S754_zero _ => XFin 0
  | S754_infinity s => XInf s
  | S754_nan => XNaN
  | S754_finite s m e => XFin (F2Q s m e)
  end.

(** [bool] is a subclass of [int]: [True] is 1 and [False] is 0. *)
Definition int_of_bool (b : bool) : Z := if b then 1 else 0.

Definition denote (v : PyVal) : option xnum :=
  match v with
  | VBool b => Some (XFin (inject_Z (int_of_bool b)))
  | VInt z => Some (XFin (inject_Z z))
  | VFloat f => Some (float_denote f)
  | VNone | VStr _ => None
  end.

(** [None] when the operands are unordered, which is when one is NaN. *)
Definition xcompare (a b : xnum) : option comparison :=
  match a, b with
  | XNaN, _ | _, XNaN => None
  | XInf sa, XInf sb =>
      Some (match sa, sb with
            | true, false => Lt
            | false, true => Gt
            | _, _ => Eq
            end)
  | XInf s, XFin _ => Some (if s then Lt else Gt)
  | XFin _, XInf s => Some (if s then Gt else Lt)
  | XFin p, XFin q => Some (p ?= q)%Q
  end.

(** *** Rich comparison *)

Inductive cmpop : Type := Py_LT | Py_LE | Py_GT | Py_GE.

Definition cmp_test (op : cmpop) (c : option comparison) : bool :=
  match op, c with
  | Py_LT, Some Lt => true
  | Py_LE, Some (Lt | Eq) => true
  | Py_GT, Some Gt => true
  | Py_GE, Some (Gt | Eq) => true
  | _, _ => false
  end.

(** [a op b] for an ordering operator: defined between numbers and
    between strings, a [TypeError] otherwise. *)
Definition richcmp (op : cmpop) (a b : PyVal) : Result bool :=
  match denote a, denote b with
  | Some x, Some y => Ok (cmp_test op (xcompare x y))
  | _, _ =>
      match a, b with
      | VStr s, VStr t => Ok (cmp_test op (Some (String.compare s t)))
      | _, _ => Raise TypeError
      end
  end.

Definition py_lt : PyVal -> PyVal -> Result bool := richcmp Py_LT.
Definition py_le : PyVal -> PyVal -> Result bool := richcmp Py_LE.
Definition py_gt : PyVal -> PyVal -> Result bool := richcmp Py_GT.
Definition py_ge : PyVal -> PyVal -> Result bool := richcmp Py_GE.

(** [a == b]: never raises. *)
Definition py_eq (a b : PyVal) : bool :=
  match denote a, denote b with
  | Some x, Some y =>
      match xcompare x y with
      | Some Eq => true
      | _ => false
      end
  | _, _ =>
      match a, b with
      | VNone, VNone => true
      | VStr s, VStr t => String.eqb s t
      | _, _ => false
      end
  end.

(** *** isinstance *)

(** [isinstance(v, (int, float))]. *)
Definition isinstance_int_float (v : PyVal) : bool :=
  match v with
  | VBool _ | VInt _ | VFloat _ => true
  | VNone | VStr _ => false
  end.

(** *** Subtraction *)

Definition is_infinity (f : spec_float) : bool :=
  match f with
  | S754_infinity _ => true
  | _ => false
  end.

(** [float(z)] for an [int]: round to nearest, ties to even; an [int]
    beyond the range of a double raises [OverflowError]. *)
Definition float_of_int (z : Z) : Result spec_float :=
  let f := binary_normalize prec emax z 0 false in
  if is_infinity f then Raise OverflowError else Ok f.

(** The integer behind an [int] or a [bool]. *)
Definition as_int (v : PyVal) : option Z :=
  match v with
  | VBool b => Some (int_of_bool b)
  | VInt z => Some z
  | _ => None
  end.

(** The double behind a number, for float arithmetic. *)
Definition as_float (v : PyVal) : Result spec_float :=
  match v with
  | VFloat f => Ok f
  | VBool b => float_of_int (int_of_bool b)
  | VInt z => float_of_int z
  | VNone | VStr _ => Raise TypeError
  end.

(** [a - b]: exact on integers, IEEE 754 as soon as one operand is a
    float, a [TypeError] on anything else. *)
Definition py_sub (a b : PyVal) : Result PyVal :=
  match as_int a, as_int b with
  | Some x, Some y => Ok (VInt (x - y))
  | _, _ =>
      if isinstance_int_float a && isinstance_int_float b then
        x <- as_float a ;;
        y <- as_float b ;;
        Ok (VFloat (SFsub prec emax x y))
      else Raise TypeError
  end.

(** *** Lists *)

(** [l[i]] for an integer [i]: a negative index counts from the end. *)
Definition list_getitem {A : Type} (l : list A) (i : Z) : Result A :=
  let n := Z.of_nat (length l) in
  let j := if i <? 0 then i + n else i in
  if (j <? 0) || (n <=? j) then Raise IndexError
  else
    match nth_error l (Z.to_nat j) with
    | Some x => Ok x
    | None => Raise IndexError
    end.

(** Truth value of a list: empty is false. *)
Definition list_truthy {A : Type} (l : list A) : bool :=
  match l with
  | [] => false
  | _ :: _ => true
  end.

(** *** min and max with a key

    One loop serves both builtins: [op] is [Py_GT] for [max] and
    [Py_LT] for [min]. The first item is the candidate; a later item
    replaces it only when its key compares strictly [op] the
    candidate's. An empty argument raises [ValueError]; the wording of
    the message is that of CPython up to 3.11, and no caller in this
    module reaches it. *)

Fixpoint min_max_loop {A : Type} (op : cmpop) (key : A -> PyVal)
  (maxitem : A) (maxval : PyVal) (it : list A) : Result A :=
  match it with
  | [] => Ok maxitem
  | item :: it' =>
      let val := key item in
      b <- richcmp op val maxval ;;
      if b then min_max_loop op key item val it'
      else min_max_loop op key maxitem maxval it'
  end.

Definition min_max {A : Type} (op : cmpop) (name : string)
  (key : A -> PyVal) (l : list A) : Result A :=
  match l with
  | [] => Raise (ValueError (name ++ "() arg is an empty sequence"))
  | item :: it => min_max_loop op key item (key item) it
  end.

Definition py_max {A : Type} := @min_max A Py_GT "max".
Definition py_min {A : Type} := @min_max A Py_LT "min".

End Py.

Import Py.

(* ================================================================== *)
(** ** class CylinderReading *)
(* ================================================================== *)

(** The dataclass has two fields. The annotations [int] and [float] are
    not enforced by Python, so a field holds any object. *)
Record CylinderReading : Type := {
  number : PyVal;
  value : PyVal
}.

(** The two failures of construction. *)
Definition InvalidCylinderNumber : PyErr :=
  ValueError "Cylinder number must be >= 1".
Definition NonNumericValue : PyErr :=
  ValueError "Temperature value must be numeric".

Definition __post_init__ (self : CylinderReading) : Result unit :=
  too_small <- py_lt (number self) (VInt 1) ;;
  if too_small then Raise InvalidCylinderNumber
  else if negb (isinstance_int_float (value self)) then Raise NonNumericValue
  else Ok tt.

(** [CylinderReading(number, value)]: the generated [__init__] stores
    the fields and then runs [__post_init__]. *)
Definition new_CylinderReading (n v : PyVal) : Result CylinderReading :=
  let self := {| number := n; value := v |} in
  _ <- __post_init__ self ;;
  Ok self.

(** Truth value of an optional reading: the class defines neither
    [__bool__] nor [__len__], so an instance is true and [None] false. *)
Definition truthy (o : option CylinderReading) : bool :=
  match o with
  | Some _ => true
  | None => false
  end.

(* ================================================================== *)
(** ** class CylinderReadings *)
(* ================================================================== *)

Record CylinderReadings : Type := {
  _readings : list CylinderReading
}.

(** [CylinderReadings(readings)]: stores the list, checks nothing. *)
Definition new_CylinderReadings (readings : list CylinderReading)
  : CylinderReadings :=
  {| _readings := readings |}.

Definition __iter__ (self : CylinderReadings) : list CylinderReading :=
  _readings self.

Definition __len__ (self : CylinderReadings) : Z :=
  Z.of_nat (length (_readings self)).

(** Subscripting with an integer; slices are left out. *)
Definition __getitem__ (self : CylinderReadings) (index : Z)
  : Result CylinderReading :=
  list_getitem (_readings self) index.

Definition get_hottest (self : CylinderReadings)
  : Result (option CylinderReading) :=
  if negb (list_truthy (_readings self)) then Ok None
  else
    r <- py_max value (_readings self) ;;
    Ok (Some r).

Definition get_coolest (self : CylinderReadings)
  : Result (option CylinderReading) :=
  if negb (list_truthy (_readings self)) then Ok None
  else
    r <- py_min value (_readings self) ;;
    Ok (Some r).

(** [o.value] for an optional reading: [None] has no such attribute. *)
Definition getattr_value (o : option CylinderReading) : Result PyVal :=
  match o with
  | Some r => Ok (value r)
  | None => Raise AttributeError
  end.

(** The result is a number, or [VNone] for Python's [None]. *)
Definition get_difference (self : CylinderReadings) : Result PyVal :=
  hottest <- get_hottest self ;;
  coolest <- get_coolest self ;;
  if truthy hottest && truthy coolest then
    hv <- getattr_value hottest ;;
    cv <- getattr_value coolest ;;
    py_sub hv cv
  else Ok VNone.

(* ================================================================== *)
(** ** class EngineData *)
(* ================================================================== *)

Record EngineData : Type := {
  rpm : PyVal;
  manifold_pressure : PyVal;
  egts : CylinderReadings;
  chts : CylinderReadings;
  oil_pressure : PyVal;
  oil_temperature : PyVal;
  fuel_pressure : PyVal;
  volts : PyVal;
  amps : PyVal;
  g_force : PyVal
}.

(** The keyword arguments of a call [EngineData(...)]: [None] stands for
    an argument that the call leaves out, [Some v] for one it passes. *)
Record EngineDataArgs : Type := {
  arg_rpm : option PyVal;
  arg_manifold_pressure : option PyVal;
  arg_egts : option CylinderReadings;
  arg_chts : option CylinderReadings;
  arg_oil_pressure : option PyVal;
  arg_oil_temperature : option PyVal;
  arg_fuel_pressure : option PyVal;
  arg_volts : option PyVal;
  arg_amps : option PyVal;
  arg_g_force : option PyVal
}.

(** A parameter with a default: the argument when passed, else the
    default. *)
Definition param {A : Type} (arg : option A) (default : A) : A :=
  match arg with
  | Some a => a
  | None => default
  end.

(** The generated [__init__]: scalar fields default to [None], the two
    collections to the result of their [default_factory]. *)
Definition new_EngineData (a : EngineDataArgs) : EngineData :=
  {| rpm := param (arg_rpm a) VNone;
     manifold_pressure := param (arg_manifold_pressure a) VNone;
     egts := param (arg_egts a) (new_CylinderReadings []);
     chts := param (arg_chts a) (new_CylinderReadings []);
     oil_pressure := param (arg_oil_pressure a) VNone;
     oil_temperature := param (arg_oil_temperature a) VNone;
     fuel_pressure := param (arg_fuel_pressure a) VNone;
     volts := param (arg_volts a) VNone;
     amps := param (arg_amps a) VNone;
     g_force := param (arg_g_force a) VNone |}.

(** The call [EngineData()]. *)
Definition no_args : EngineDataArgs :=
  {| arg_rpm := None; arg_manifold_pressure := None;
     arg_egts := None; arg_chts := None;
     arg_oil_pressure := None; arg_oil_temperature := None;
     arg_fuel_pressure := None; arg_volts := None;
     arg_amps := None; arg_g_force := None |}.

(** The eight scalar channels. *)
Inductive ScalarField : Type :=
| Rpm | ManifoldPressure | OilPressure | OilTemperature
| FuelPressure | Volts | Amps | GForce.

(** Reading the attribute of a snapshot. *)
Definition get_scalar (f : ScalarField) (d : EngineData) : PyVal :=
  match f with
  | Rpm => rpm d
  | ManifoldPressure => manifold_pressure d
  | OilPressure => oil_pressure d
  | OilTemperature => oil_temperature d
  | FuelPressure => fuel_pressure d
  | Volts => volts d
  | Amps => amps d
  | GForce => g_force d
  end.

(** The state of a keyword argument in a call. *)
Definition get_arg (f : ScalarField) (a : EngineDataArgs) : option PyVal :=
  match f with
  | Rpm => arg_rpm a
  | ManifoldPressure => arg_manifold_pressure a
  | OilPressure => arg_oil_pressure a
  | OilTemperature => arg_oil_temperature a
  | FuelPressure => arg_fuel_pressure a
  | Volts => arg_volts a
  | Amps => arg_amps a
  | GForce => arg_g_force a
  end.

(** Adding the keyword argument [f=v] to a call. *)
Definition with_arg (f : ScalarField) (v : PyVal) (a : EngineDataArgs)
  : EngineDataArgs :=
  let s := Some v in
  match f with
  | Rpm =>
      {| arg_rpm := s; arg_manifold_pressure := arg_manifold_pressure a;
         arg_egts := arg_egts a; arg_chts := arg_chts a;
         arg_oil_pressure := arg_oil_pressure a;
         arg_oil_temperature := arg_oil_temperature a;
         arg_fuel_pressure := arg_fuel_pressure a;
         arg_volts := arg_volts a; arg_amps := arg_amps a;
         arg_g_force := arg_g_force a |}
  | ManifoldPressure =>
      {| arg_rpm := arg_rpm a; arg_manifold_pressure := s;
         arg_egts := arg_egts a; arg_chts := arg_chts a;
         arg_oil_pressure := arg_oil_pressure a;
         arg_oil_temperature := arg_oil_temperature a;
         arg_fuel_pressure := arg_fuel_pressure a;
         arg_volts := arg_volts a; arg_amps := arg_amps a;
         arg_g_force := arg_g_force a |}
  | OilPressure =>
      {| arg_rpm := arg_rpm a;
         arg_manifold_pressure := arg_manifold_pressure a;
         arg_egts := arg_egts a; arg_chts := arg_chts a;
         arg_oil_pressure := s;
         arg_oil_temperature := arg_oil_temperature a;
         arg_fuel_pressure := arg_fuel_pressure a;
         arg_volts := arg_volts a; arg_amps := arg_amps a;
         arg_g_force := arg_g_force a |}
  | OilTemperature =>
      {| arg_rpm := arg_rpm a;
         arg_manifold_pressure := arg_manifold_pressure a;
         arg_egts := arg_egts a; arg_chts := arg_chts a;
         arg_oil_pressure := arg_oil_pressure a;
         arg_oil_temperature := s;
         arg_fuel_pressure := arg_fuel_pressure a;
         arg_volts := arg_volts a; arg_amps := arg_amps a;
         arg_g_force := arg_g_force a |}
  | FuelPressure =>
      {| arg_rpm := arg_rpm a;
         arg_manifold_pressure := arg_manifold_pressure a;
         arg_egts := arg_egts a; arg_chts := arg_chts a;
         arg_oil_pressure := arg_oil_pressure a;
         arg_oil_temperature := arg_oil_temperature a;
         arg_fuel_pressure := s;
         arg_volts := arg_volts a; arg_amps := arg_amps a;
         arg_g_force := arg_g_force a |}
  | Volts =>
      {| arg_rpm := arg_rpm a;
         arg_manifold_pressure := arg_manifold_pressure a;
         arg_egts := arg_egts a; arg_chts := arg_chts a;
         arg_oil_pressure := arg_oil_pressure a;
         arg_oil_temperature := arg_oil_temperature a;
         arg_fuel_pressure := arg_fuel_pressure a;
         arg_volts := s; arg_amps := arg_amps a;
         arg_g_force := arg_g_force a |}
  | Amps =>
      {| arg_rpm := arg_rpm a;
         arg_manifold_pressure := arg_manifold_pressure a;
         arg_egts := arg_egts a; arg_chts := arg_chts a;
         arg_oil_pressure := arg_oil_pressure a;
         arg_oil_temperature := arg_oil_temperature a;
         arg_fuel_pressure := arg_fuel_pressure a;
         arg_volts := arg_volts a; arg_amps := s;
         arg_g_force := arg_g_force a |}
  | GForce =>
      {| arg_rpm := arg_rpm a;
         arg_manifold_pressure := arg_manifold_pressure a;
         arg_egts := arg_egts a; arg_chts := arg_chts a;
         arg_oil_pressure := arg_oil_pressure a;
         arg_oil_temperature := arg_oil_temperature a;
         arg_fuel_pressure := arg_fuel_pressure a;
         arg_volts := arg_volts a; arg_amps := arg_amps a;
         arg_g_force := s |}
  end.

(* ================================================================== *)
(** ** Vocabulary of the statements *)
(* ================================================================== *)

Definition xnan (x : xnum) : bool :=
  match x with
  | XNaN => true
  | _ => false
  end.

(** [2^e] as a fraction of integers: [pnum e / pden e]. *)
Definition pnum (e : Z) : Z := 2 ^ Z.max e 0.
Definition pden (e : Z) : Z := 2 ^ Z.max (- e) 0.

(** An instance of [int] or [float] other than NaN. *)
Definition not_nan_number (v : PyVal) : bool :=
  match denote v with
  | Some x => negb (xnan x)
  | None => false
  end.

(** The weak form of a strict operator, and the outcome of [compare]
    that a strict operator asks for. *)
Definition weak (op : cmpop) : cmpop :=
  match op with
  | Py_LT | Py_LE => Py_LE
  | Py_GT | Py_GE => Py_GE
  end.

Definition strict (op : cmpop) : bool :=
  match op with
  | Py_LT | Py_GT => true
  | Py_LE | Py_GE => false
  end.

(** A number that is neither an infinity nor NaN. *)
Definition is_finite_number (v : PyVal) : bool :=
  match v with
  | VBool _ | VInt _ => true
  | VFloat (S754_zero _) | VFloat (S754_finite _ _ _) => true
  | _ => false
  end.

(** The readings used in the examples below. *)
Definition float_lit (m e : Z) : PyVal :=
  VFloat (binary_normalize prec emax m e false).

Definition R (n : Z) (v : PyVal) : CylinderReading :=
  {| number := VInt n; value := v |}.

(** 1200.0, 1250.5, 1180.0 and 70.5 as doubles. *)
Definition f1200_0 : PyVal := float_lit 1200 0.
Definition f1250_5 : PyVal := float_lit 2501 (-1).
Definition f1180_0 : PyVal := float_lit 1180 0.
Definition f70_5 : PyVal := float_lit 141 (-1).

(** [r], stored at position [i] of [l], is the extremum of [l] for the
    strict operator [op] and the first reading to reach it: its value
    is weakly [op] the value of every reading of [l] and strictly [op]
    the value of every reading stored before position [i]. With
    [Py_GT] that is the first reading of maximum value, with [Py_LT]
    the first of minimum value. *)
Definition first_extremum (op : cmpop) (l : list CylinderReading)
  (i : nat) (r : CylinderReading) : Prop :=
  nth_error l i = Some r /\
  (forall j x, nth_error l j = Some x ->
     richcmp (weak op) (value r) (value x) = Ok true) /\
  (forall j x, (j < i)%nat -> nth_error l j = Some x ->
     richcmp op (value r) (value x) = Ok true).

(** What the specification asks of a query [q] that looks for the
    extremum for [op]: absent on the empty collection, else the first
    reading of extremal value. *)
Definition extremum_query (op : cmpop)
  (q : CylinderReadings -> Result (option CylinderReading))
  (self : CylinderReadings) : Prop :=
  (_readings self = [] -> q self = Ok None) /\
  (_readings self <> [] ->
   exists i r, q self = Ok (Some r) /\ first_extremum op (_readings self) i r).

(** Every reading holds a number; every reading holds a number other
    than NaN. *)
Definition all_numbers (self : CylinderReadings) : Prop :=
  Forall (fun r => isinstance_int_float (value r) = true) (_readings self).

Definition no_nan (self : CylinderReadings) : Prop :=
  Forall (fun r => not_nan_number (value r) = true) (_readings self).

(** +0.0 and NaN. *)
Definition f0_0 : PyVal := VFloat (S754_zero false).
Definition nan : PyVal := VFloat S754_nan.
Definition inf : PyVal := VFloat (S754_infinity false).

(** The double 1.0. *)
Definition one : spec_float := binary_normalize prec emax 1 0 false.

(** An instance of [int], [bool] included; an instance of [float];
    a float that is a zero or a finite non-zero double. *)
Definition is_int (v : PyVal) : bool :=
  match v with
  | VBool _ | VInt _ => true
  | _ => false
  end.

Definition is_float (v : PyVal) : bool :=
  match v with
  | VFloat _ => true
  | _ => false
  end.

Definition is_finite_float (v : PyVal) : bool :=
  match v with
  | VFloat (S754_zero _) | VFloat (S754_finite _ _ _) => true
  | _ => false
  end.

Definition all_ints (self : CylinderReadings) : Prop :=
  Forall (fun r => is_int (value r) = true) (_readings self).

Definition all_floats (self : CylinderReadings) : Prop :=
  Forall (fun r => is_float (value r) = true) (_readings self).

Definition all_finite_floats (self : CylinderReadings) : Prop :=
  Forall (fun r => is_finite_float (value r) = true) (_readings self).

(** A double that is neither NaN nor below zero: a zero of either sign,
    a positive finite double, or positive infinity. *)
Definition nonneg_float (f : spec_float) : bool :=
  match f with
  | S754_zero _ => true
  | S754_infinity s => negb s
  | S754_nan => false
  | S754_finite s _ _ => negb s
  end.

(** The integer held by a reading whose value is an [int]; 0 stands in
    for a value that is not. *)
Definition int_value (r : CylinderReading) : Z :=
  match as_int (value r) with
  | Some z => z
  | None => 0
  end.

(* ================================================================== *)
(** ** Facts about the Python fragment *)
(* ================================================================== *)

Section PyFacts.

Lemma bind_Ok {A B : Type} (a : A) (k : A -> Result B) :
  bind (Ok a) k = k a.
Proof. reflexivity. Qed.

Lemma Qcompare_inject_Z (a b : Z) :
  (inject_Z a ?= inject_Z b)%Q = (a ?= b)%Z.
Proof.
  unfold Qcompare, inject_Z; simpl.
  now rewrite !Z.mul_1_r.
Qed.

(** Comparing two integers is comparing them in [Z]. *)
Lemma richcmp_int (op : cmpop) (a b : Z) :
  richcmp op (VInt a) (VInt b) = Ok (cmp_test op (Some (a ?= b)%Z)).
Proof.
  unfold richcmp; simpl.
  now rewrite Qcompare_inject_Z.
Qed.

Lemma py_lt_int (a b : Z) : py_lt (VInt a) (VInt b) = Ok (a <? b).
Proof.
  unfold py_lt; rewrite richcmp_int; unfold Z.ltb.
  now destruct (a ?= b)%Z.
Qed.

(** *** The order on numbers that are not NaN *)

(** *** The order on numbers that are not NaN *)

Lemma Qcompare_refl (q : Q) : (q ?= q)%Q = Eq.
Proof. apply Qeq_alt, Qeq_refl. Qed.

Lemma Qcompare_Gt_chain (x y m : Q) :
  (y ?= m)%Q = Gt -> (x ?= m)%Q <> Gt -> (y ?= x)%Q = Gt.
Proof.
  intros Hmy Hxm. apply Qgt_alt.
  apply Qgt_alt in Hmy. apply Qle_alt in Hxm.
  eapply Qle_lt_trans; eassumption.
Qed.

Lemma Qcompare_Lt_chain (x y m : Q) :
  (y ?= m)%Q = Lt -> (x ?= m)%Q <> Lt -> (y ?= x)%Q = Lt.
Proof.
  intros Hym Hmx. apply Qlt_alt.
  apply Qlt_alt in Hym. apply Qge_alt in Hmx.
  eapply Qlt_le_trans; eassumption.
Qed.

Lemma xcompare_total (x y : xnum) :
  xnan x = false -> xnan y = false -> exists c, xcompare x y = Some c.
Proof.
  destruct x as [|sx|p], y as [|sy|q]; simpl; try discriminate;
    intros _ _; eexists; reflexivity.
Qed.

Lemma xcompare_refl (x : xnum) :
  xnan x = false -> xcompare x x = Some Eq.
Proof.
  destruct x as [|[|]|p]; simpl; try discriminate; intros _;
    try reflexivity.
  now rewrite Qcompare_refl.
Qed.

Lemma xcompare_antisym (x y : xnum) (c : comparison) :
  xcompare x y = Some c -> xcompare y x = Some (CompOpp c).
Proof.
  destruct x as [|[|]|p], y as [|[|]|q]; simpl; try discriminate;
    intros H; injection H as <-; try reflexivity.
  now rewrite Qcompare_antisym.
Qed.

(** If [y] is strictly on the [s] side of [m] and [x] is not, then [y]
    is strictly on the [s] side of [x]. *)
Lemma xcompare_chain (s : comparison) (x y m : xnum) :
  s <> Eq ->
  xnan x = false ->
  xcompare y m = Some s ->
  xcompare x m <> Some s ->
  xcompare y x = Some s.
Proof.
  intros Hs.
  destruct x as [|[|]|p], y as [|[|]|q], m as [|[|]|r], s; simpl;
    try discriminate; try congruence; intros _ H1 H2.
  - injection H1 as H1. f_equal.
    apply Qcompare_Lt_chain with r; congruence.
  - injection H1 as H1. f_equal.
    apply Qcompare_Gt_chain with r; congruence.
Qed.

Lemma not_nan_number_denote (v : PyVal) :
  not_nan_number v = true ->
  exists x, denote v = Some x /\ xnan x = false.
Proof.
  unfold not_nan_number. destruct (denote v) as [x|]; [|discriminate].
  intros H. exists x. split; [reflexivity|].
  now destruct (xnan x).
Qed.

Lemma not_nan_number_isinstance (v : PyVal) :
  not_nan_number v = true -> isinstance_int_float v = true.
Proof. now destruct v. Qed.

Lemma isinstance_denote (v : PyVal) :
  isinstance_int_float v = true -> exists x, denote v = Some x.
Proof. destruct v; try discriminate; intros _; eexists; reflexivity. Qed.

Lemma richcmp_denote (op : cmpop) (a b : PyVal) (x y : xnum) :
  denote a = Some x -> denote b = Some y ->
  richcmp op a b = Ok (cmp_test op (xcompare x y)).
Proof. unfold richcmp. now intros -> ->. Qed.

(** Between two numbers a comparison never raises. *)
Lemma richcmp_number (op : cmpop) (a b : PyVal) :
  isinstance_int_float a = true -> isinstance_int_float b = true ->
  exists t, richcmp op a b = Ok t.
Proof.
  intros Ha Hb.
  destruct (isinstance_denote a Ha) as [x Hx].
  destruct (isinstance_denote b Hb) as [y Hy].
  rewrite (richcmp_denote op a b x y Hx Hy). eexists; reflexivity.
Qed.

Lemma richcmp_irrefl (op : cmpop) (a : PyVal) :
  strict op = true -> not_nan_number a = true ->
  richcmp op a a = Ok false.
Proof.
  intros Hop Ha.
  destruct (not_nan_number_denote a Ha) as (x & Hx & Hn).
  rewrite (richcmp_denote op a a x x Hx Hx), (xcompare_refl x Hn).
  now destruct op.
Qed.

Lemma richcmp_asym (op : cmpop) (a b : PyVal) :
  strict op = true ->
  not_nan_number a = true -> not_nan_number b = true ->
  richcmp op a b = Ok true -> richcmp op b a = Ok false.
Proof.
  intros Hop Ha Hb.
  destruct (not_nan_number_denote a Ha) as (x & Hx & Hnx).
  destruct (not_nan_number_denote b Hb) as (y & Hy & Hny).
  rewrite (richcmp_denote op a b x y Hx Hy), (richcmp_denote op b a y x Hy Hx).
  destruct (xcompare_total x y Hnx Hny) as [c Hc].
  rewrite Hc, (xcompare_antisym x y c Hc).
  now destruct op, c.
Qed.

Lemma richcmp_chain (op : cmpop) (x y m : PyVal) :
  strict op = true ->
  not_nan_number x = true -> not_nan_number y = true ->
  not_nan_number m = true ->
  richcmp op y m = Ok true -> richcmp op x m = Ok false ->
  richcmp op y x = Ok true.
Proof.
  intros Hop Hx Hy Hm.
  destruct (not_nan_number_denote x Hx) as (a & Ha & Hna).
  destruct (not_nan_number_denote y Hy) as (b & Hb & Hnb).
  destruct (not_nan_number_denote m Hm) as (c & Hc & Hnc).
  rewrite (richcmp_denote op y m b c Hb Hc), (richcmp_denote op x m a c Ha Hc),
    (richcmp_denote op y x b a Hb Ha).
  destruct (xcompare_total b c Hnb Hnc) as [c1 H1].
  destruct (xcompare_total a c Hna Hnc) as [c2 H2].
  rewrite H1, H2. intros T1 T2.
  destruct op; try discriminate.
  - rewrite (xcompare_chain Lt a b c); try reflexivity; try assumption;
      try discriminate.
    + destruct c1; try discriminate; assumption.
    + rewrite H2. destruct c2; try discriminate; congruence.
  - rewrite (xcompare_chain Gt a b c); try reflexivity; try assumption;
      try discriminate.
    + destruct c1; try discriminate; assumption.
    + rewrite H2. destruct c2; try discriminate; congruence.
Qed.

(** [x] not strictly [op] than [r] means [r] weakly [op] than [x]. *)
Lemma richcmp_not_strict_weak (op : cmpop) (x r : PyVal) :
  strict op = true ->
  not_nan_number x = true -> not_nan_number r = true ->
  richcmp op x r = Ok false -> richcmp (weak op) r x = Ok true.
Proof.
  intros Hop Hx Hr.
  destruct (not_nan_number_denote x Hx) as (a & Ha & Hna).
  destruct (not_nan_number_denote r Hr) as (b & Hb & Hnb).
  rewrite (richcmp_denote op x r a b Ha Hb),
    (richcmp_denote (weak op) r x b a Hb Ha).
  destruct (xcompare_total a b Hna Hnb) as [c Hc].
  rewrite Hc, (xcompare_antisym a b c Hc).
  now destruct op, c.
Qed.

(** *** Floats: the order of the denoted numbers is the IEEE 754 one *)

Lemma digits2_pos_bounds (m : positive) :
  2 ^ (Zpos (digits2_pos m) - 1) <= Zpos m < 2 ^ Zpos (digits2_pos m).
Proof.
  induction m as [p IH|p IH|]; cbn [digits2_pos].
  - rewrite Pos2Z.inj_succ.
    replace (Z.succ (Zpos (digits2_pos p)) - 1)
      with (Z.succ (Zpos (digits2_pos p) - 1)) by lia.
    rewrite !Z.pow_succ_r by lia. lia.
  - rewrite Pos2Z.inj_succ.
    replace (Z.succ (Zpos (digits2_pos p)) - 1)
      with (Z.succ (Zpos (digits2_pos p) - 1)) by lia.
    rewrite !Z.pow_succ_r by lia. lia.
  - simpl. lia.
Qed.

Lemma Qcompare_F2Q (s1 : bool) (m1 : positive) (e1 : Z)
  (s2 : bool) (m2 : positive) (e2 : Z) :
  (F2Q s1 m1 e1 ?= F2Q s2 m2 e2)%Q =
  (cond_Zopp s1 (Zpos m1) * (pnum e1 * pden e2)
   ?= cond_Zopp s2 (Zpos m2) * (pnum e2 * pden e1)).
Proof.
  unfold Qcompare, F2Q, pnum, pden.
  destruct e1 as [|p1|p1], e2 as [|p2|p2];
    cbn [Qnum Qden inject_Z Z.opp Z.max Z.compare];
    rewrite ?Pos2Z.inj_pow, ?Z.pow_0_r; f_equal; ring.
Qed.

Lemma pscale (e1 e2 : Z) :
  e1 <= e2 -> pnum e1 * pden e2 * 2 ^ (e2 - e1) = pnum e2 * pden e1.
Proof.
  intros H. unfold pnum, pden.
  rewrite <- !Z.pow_add_r by lia. f_equal. lia.
Qed.

Lemma pscale_pos (e1 e2 : Z) : 0 < pnum e1 * pden e2.
Proof.
  unfold pnum, pden. apply Z.mul_pos_pos; apply Z.pow_pos_nonneg; lia.
Qed.

(** A canonical mantissa has at most 53 digits, and exactly 53 above
    the least exponent. *)
Lemma canonical_digits (m : positive) (e : Z) :
  canonical_mantissa prec emax m e = true ->
  Zpos (digits2_pos m) <= 53 /\ -1074 <= e /\
  (-1074 < e -> Zpos (digits2_pos m) = 53).
Proof.
  unfold canonical_mantissa, fexp, SpecFloat.emin, prec, emax.
  intros H. apply Z.eqb_eq in H. lia.
Qed.

(** Between canonical doubles the smaller exponent gives the smaller
    magnitude. *)
Lemma magnitude_lt (m1 : positive) (e1 : Z) (m2 : positive) (e2 : Z) :
  canonical_mantissa prec emax m1 e1 = true ->
  canonical_mantissa prec emax m2 e2 = true ->
  e1 < e2 ->
  Zpos m1 * (pnum e1 * pden e2) < Zpos m2 * (pnum e2 * pden e1).
Proof.
  intros C1 C2 H.
  destruct (canonical_digits _ _ C1) as (D1 & E1 & _).
  destruct (canonical_digits _ _ C2) as (_ & _ & D2).
  specialize (D2 ltac:(lia)).
  pose proof (digits2_pos_bounds m1) as B1.
  pose proof (digits2_pos_bounds m2) as B2. rewrite D2 in B2.
  assert (Zpos m1 < 2 ^ 53).
  { eapply Z.lt_le_trans; [apply B1|]. apply Z.pow_le_mono_r; lia. }
  rewrite <- (pscale e1 e2) by lia.
  pose proof (pscale_pos e1 e2) as P.
  assert (2 <= 2 ^ (e2 - e1)).
  { change 2 with (2 ^ 1) at 1. apply Z.pow_le_mono_r; lia. }
  change (53 - 1) with 52 in B2.
  change (2 ^ 53) with (2 * 2 ^ 52) in *.
  set (k := 2 ^ 52) in *. set (S := pnum e1 * pden e2) in *.
  set (T := 2 ^ (e2 - e1)) in *.
  assert (A1 : Z.pos m1 * S < 2 * k * S)
    by (apply Z.mul_lt_mono_pos_r; lia).
  assert (A2 : 2 * k <= Z.pos m2 * T).
  { transitivity (k * T); [|apply Z.mul_le_mono_nonneg_r; lia].
    rewrite (Z.mul_comm 2 k). apply Z.mul_le_mono_nonneg_l; subst k; lia. }
  assert (A3 : 2 * k * S <= Z.pos m2 * T * S)
    by (apply Z.mul_le_mono_nonneg_r; lia).
  replace (Z.pos m2 * (S * T)) with (Z.pos m2 * T * S) by ring. lia.
Qed.

Lemma magnitude_compare (m1 m2 : positive) (e : Z) :
  (Zpos m1 * (pnum e * pden e) ?= Zpos m2 * (pnum e * pden e))
  = Pos.compare_cont Eq m1 m2.
Proof.
  pose proof (pscale_pos e e).
  change (Pos.compare_cont Eq m1 m2) with (Zpos m1 ?= Zpos m2).
  symmetry. apply Zmult_compare_compat_r. lia.
Qed.

Lemma Qcompare_0_F2Q (s : bool) (m : positive) (e : Z) :
  (0 ?= F2Q s m e)%Q = if s then Gt else Lt.
Proof.
  unfold Qcompare, F2Q.
  assert (P : 0 < 2 ^ e \/ e < 0).
  { destruct (Z.lt_ge_cases e 0); [right; assumption|].
    left; apply Z.pow_pos_nonneg; lia. }
  destruct e as [|p|p], s; cbn [Qnum Qden inject_Z cond_Zopp];
    try reflexivity.
  - apply Z.compare_gt_iff. destruct P; nia.
  - apply Z.compare_lt_iff. destruct P; nia.
Qed.

Lemma Qcompare_F2Q_0 (s : bool) (m : positive) (e : Z) :
  (F2Q s m e ?= 0)%Q = if s then Lt else Gt.
Proof.
  rewrite <- Qcompare_antisym, Qcompare_0_F2Q. now destruct s.
Qed.

(** On doubles, comparing the denoted numbers is [SFcompare], the
    comparison of IEEE 754. *)
Lemma float_compare_denote (f g : spec_float) :
  valid_binary prec emax f = true -> valid_binary prec emax g = true ->
  xcompare (float_denote f) (float_denote g) = SFcompare f g.
Proof.
  destruct f as [s1|s1| |s1 m1 e1], g as [s2|s2| |s2 m2 e2];
    cbn [float_denote xcompare SFcompare valid_binary]; intros V1 V2;
    try reflexivity.
  - now rewrite Qcompare_0_F2Q.
  - now rewrite Qcompare_F2Q_0.
  - apply andb_prop in V1 as [C1 _]. apply andb_prop in V2 as [C2 _].
    rewrite Qcompare_F2Q. f_equal.
    pose proof (pscale_pos e1 e2) as P12.
    pose proof (pscale_pos e2 e1) as P21.
    destruct s1, s2; cbn [cond_Zopp].
    + destruct (Z.compare_spec e1 e2) as [E|E|E].
      * subst e2. rewrite !Z.mul_opp_l, Z.compare_opp, magnitude_compare.
        apply ZC4.
      * apply Z.compare_gt_iff.
        pose proof (magnitude_lt m1 e1 m2 e2 C1 C2 E). lia.
      * apply Z.compare_lt_iff.
        pose proof (magnitude_lt m2 e2 m1 e1 C2 C1 E). lia.
    + apply Z.compare_lt_iff. nia.
    + apply Z.compare_gt_iff. nia.
    + destruct (Z.compare_spec e1 e2) as [E|E|E].
      * subst e2. apply magnitude_compare.
      * apply Z.compare_lt_iff. now apply magnitude_lt.
      * apply Z.compare_gt_iff. now apply magnitude_lt.
Qed.

(** So [<] and [>] between two floats are those of IEEE 754. *)
Lemma py_lt_float (f g : spec_float) :
  valid_binary prec emax f = true -> valid_binary prec emax g = true ->
  py_lt (VFloat f) (VFloat g) = Ok (SFltb f g).
Proof.
  intros Vf Vg. unfold py_lt, richcmp, SFltb; cbn [denote].
  rewrite (float_compare_denote f g Vf Vg).
  now destruct (SFcompare f g) as [[| |]|].
Qed.

Lemma py_gt_float (f g : spec_float) :
  valid_binary prec emax f = true -> valid_binary prec emax g = true ->
  py_gt (VFloat f) (VFloat g) = Ok (SFltb g f).
Proof.
  intros Vf Vg. unfold py_gt, richcmp, SFltb; cbn [denote].
  destruct (xcompare (float_denote f) (float_denote g)) as [c|] eqn:E.
  - rewrite <- (float_compare_denote g f Vg Vf), (xcompare_antisym _ _ _ E).
    now destruct c.
  - rewrite <- (float_compare_denote g f Vg Vf).
    destruct (float_denote f) as [|[|]|p], (float_denote g) as [|[|]|q];
      simpl in *; try discriminate; reflexivity.
Qed.

End PyFacts.

(* ================================================================== *)
(** ** Properties of CylinderReading *)
(* ================================================================== *)

Section CylinderReadingFacts.

(** Construction with an integer cylinder number, case by case. *)
Lemma new_CylinderReading_int (n : Z) (v : PyVal) :
  new_CylinderReading (VInt n) v =
  if n <? 1 then Raise InvalidCylinderNumber
  else if isinstance_int_float v
       then Ok {| number := VInt n; value := v |}
       else Raise NonNumericValue.
Proof.
  unfold new_CylinderReading, __post_init__; cbn [number value].
  rewrite py_lt_int, bind_Ok.
  destruct (n <? 1); [reflexivity|].
  now destruct (isinstance_int_float v).
Qed.

(** Whatever the cylinder number is, a reading that was constructed
    holds a value that passed the [isinstance] check. *)
Lemma new_CylinderReading_Ok_inv (n v : PyVal) (r : CylinderReading) :
  new_CylinderReading n v = Ok r ->
  r = {| number := n; value := v |} /\
  py_lt n (VInt 1) = Ok false /\
  isinstance_int_float v = true.
Proof.
  unfold new_CylinderReading, __post_init__; cbn [number value].
  destruct (py_lt n (VInt 1)) as [[|]|e]; simpl; try discriminate.
  destruct (isinstance_int_float v); simpl; try discriminate.
  intros H; injection H as <-. auto.
Qed.

(** C6. For a numeric value [v], construction with the integer [n]
    fails with InvalidCylinderNumber exactly when [n < 1]; when
    [n >= 1] it succeeds and the reading exposes [number == n] and
    [value == v] unchanged. Zero and negative values are numeric. *)
Theorem new_CylinderReading_number_check (n : Z) (v : PyVal) :
  isinstance_int_float v = true ->
  (new_CylinderReading (VInt n) v = Raise InvalidCylinderNumber <-> n < 1) /\
  (1 <= n ->
   exists r, new_CylinderReading (VInt n) v = Ok r /\
             number r = VInt n /\ value r = v).
Proof.
  intros Hv. rewrite new_CylinderReading_int, Hv.
  destruct (Z.ltb_spec n 1) as [Hlt|Hge]; split.
  - split; [lia | reflexivity].
  - lia.
  - split; [discriminate | lia].
  - intros _. eexists; split; [reflexivity | split; reflexivity].
Qed.

Lemma new_CylinderReading_number_check_witness :
  isinstance_int_float (VInt (-10)) = true /\
  ((new_CylinderReading (VInt 6) (VInt (-10))
    = Raise InvalidCylinderNumber <-> 6 < 1) /\
   (1 <= 6 ->
    exists r, new_CylinderReading (VInt 6) (VInt (-10)) = Ok r /\
              number r = VInt 6 /\ value r = VInt (-10))).
Proof.
  split; [reflexivity|].
  apply (new_CylinderReading_number_check 6 (VInt (-10))).
  reflexivity.
Defined.

(** C9. When both rules are violated at once, a cylinder number below 1
    and a value that is not numeric, the failure is
    InvalidCylinderNumber: the number is checked first. *)
Theorem number_check_precedes_value_check (n : Z) (v : PyVal) :
  n < 1 ->
  isinstance_int_float v = false ->
  new_CylinderReading (VInt n) v = Raise InvalidCylinderNumber.
Proof.
  intros Hn _. rewrite new_CylinderReading_int.
  destruct (Z.ltb_spec n 1); [reflexivity | lia].
Qed.

Lemma number_check_precedes_value_check_witness :
  new_CylinderReading (VInt 0) (VStr "1200") = Raise InvalidCylinderNumber.
Proof.
  apply (number_check_precedes_value_check 0 (VStr "1200")).
  - lia.
  - reflexivity.
Defined.

(** C10. A boolean passes the numeric check, [bool] being a subclass of
    [int]: for every [n >= 1] construction with [True] or [False]
    succeeds and the reading stores the boolean itself. *)
Theorem new_CylinderReading_accepts_bool (n : Z) (b : bool) :
  1 <= n ->
  new_CylinderReading (VInt n) (VBool b)
  = Ok {| number := VInt n; value := VBool b |}.
Proof.
  intros Hn. rewrite new_CylinderReading_int.
  destruct (Z.ltb_spec n 1); [lia | reflexivity].
Qed.

Lemma new_CylinderReading_accepts_bool_witness :
  new_CylinderReading (VInt 1) (VBool true)
  = Ok {| number := VInt 1; value := VBool true |}.
Proof.
  apply (new_CylinderReading_accepts_bool 1 true). lia.
Defined.

(** C3, as the code has it. For an integer [n >= 1], construction fails
    with NonNumericValue exactly when the value is not an instance of
    [int] or [float]; and a reading that was constructed, with whatever
    cylinder number, holds an instance of [int] or [float]. Nothing
    checks that a float is finite. *)
Theorem new_CylinderReading_value_check (n : Z) (v : PyVal) :
  1 <= n ->
  (new_CylinderReading (VInt n) v = Raise NonNumericValue
   <-> isinstance_int_float v = false) /\
  (forall (m w : PyVal) (r : CylinderReading),
     new_CylinderReading m w = Ok r ->
     isinstance_int_float (value r) = true).
Proof.
  intros Hn. split.
  - rewrite new_CylinderReading_int.
    destruct (Z.ltb_spec n 1); [lia|].
    destruct (isinstance_int_float v); split; congruence.
  - intros m w r H.
    apply new_CylinderReading_Ok_inv in H as (-> & _ & Hw). exact Hw.
Qed.

Lemma new_CylinderReading_value_check_witness :
  (new_CylinderReading (VInt 1) VNone = Raise NonNumericValue
   <-> isinstance_int_float VNone = false) /\
  (forall (m w : PyVal) (r : CylinderReading),
     new_CylinderReading m w = Ok r ->
     isinstance_int_float (value r) = true).
Proof.
  apply (new_CylinderReading_value_check 1 VNone). lia.
Defined.

(** C3 fails as stated: positive infinity is an instance of [float], so
    the reading is constructed, and its value is not finite. *)
Lemma new_CylinderReading_accepts_infinity :
  exists r,
    new_CylinderReading (VInt 1) (VFloat (S754_infinity false)) = Ok r /\
    is_finite_number (value r) = false.
Proof.
  eexists; split; [vm_compute; reflexivity | reflexivity].
Qed.

End CylinderReadingFacts.

(* ================================================================== *)
(** ** Properties of CylinderReadings: subscripting *)
(* ================================================================== *)

Section Subscript.

Variable self : CylinderReadings.
Variable index : Z.

Let n : Z := __len__ self.

Lemma getitem_in_range (k : Z) :
  0 <= k < n ->
  exists x, nth_error (_readings self) (Z.to_nat k) = Some x.
Proof.
  intros Hk. subst n; unfold __len__ in Hk.
  destruct (nth_error (_readings self) (Z.to_nat k)) as [x|] eqn:E.
  - now exists x.
  - apply nth_error_None in E. lia.
Qed.

(** C2, as the code has it. Subscripting is that of the underlying
    list. An index in [[0, length)] gives the stored element at that
    position. An index in [[-length, 0)] counts from the end and gives
    the element at position [length + index]. Every other integer
    index raises IndexError. *)
Theorem getitem_spec :
  (0 <= index < n ->
   exists x, nth_error (_readings self) (Z.to_nat index) = Some x /\
             __getitem__ self index = Ok x) /\
  (- n <= index < 0 ->
   exists x, nth_error (_readings self) (Z.to_nat (n + index)) = Some x /\
             __getitem__ self index = Ok x) /\
  (index < - n \/ n <= index ->
   __getitem__ self index = Raise IndexError).
Proof.
  unfold __getitem__, list_getitem. fold (__len__ self). fold n.
  repeat split.
  - intros H. destruct (getitem_in_range index H) as [x Hx].
    exists x. split; [exact Hx|].
    destruct (Z.ltb_spec index 0); [lia|].
    destruct (Z.ltb_spec index 0); [lia|].
    destruct (Z.leb_spec n index); [lia|]. simpl.
    now rewrite Hx.
  - intros H.
    assert (Hk : 0 <= n + index < n) by lia.
    destruct (getitem_in_range (n + index) Hk) as [x Hx].
    exists x. split; [exact Hx|].
    destruct (Z.ltb_spec index 0); [|lia].
    destruct (Z.ltb_spec (index + n) 0); [lia|].
    destruct (Z.leb_spec n (index + n)); [lia|]. simpl.
    replace (index + n) with (n + index) by lia.
    now rewrite Hx.
  - intros [H|H].
    + destruct (Z.ltb_spec index 0); [|subst n; unfold __len__ in *; lia].
      destruct (Z.ltb_spec (index + n) 0); [reflexivity | lia].
    + destruct (Z.ltb_spec index 0); [subst n; unfold __len__ in *; lia|].
      destruct (Z.ltb_spec index 0); [lia|].
      destruct (Z.leb_spec n index); [reflexivity | lia].
Qed.

End Subscript.

(** The literals are doubles in canonical form, and the two orders
    agree on them: the one of the denoted numbers and the IEEE 754
    one. *)
Example literals_valid :
  Forall (fun v => match v with
                   | VFloat f => valid_binary prec emax f = true
                   | _ => False
                   end)
    [f1200_0; f1250_5; f1180_0; f70_5; f0_0; nan; inf].
Proof. repeat constructor. Qed.

Example literals_order :
  let a := binary_normalize prec emax 1180 0 false in
  let b := binary_normalize prec emax 2501 (-1) false in
  py_lt (VFloat a) (VFloat b) = Ok (SFltb a b) /\
  py_lt (VFloat b) (VFloat a) = Ok (SFltb b a) /\
  py_lt (VFloat a) (VFloat a) = Ok (SFltb a a) /\
  py_lt nan (VFloat b) = Ok (SFltb S754_nan b) /\
  py_lt (VFloat a) inf = Ok (SFltb a (S754_infinity false)).
Proof. vm_compute. repeat split. Qed.

(** C2 fails as stated: [-1] lies outside [[0, 1)], yet subscripting a
    collection of one reading with it returns that reading. *)
Lemma getitem_negative_index_returns :
  let c := new_CylinderReadings [R 1 f1200_0] in
  new_CylinderReading (VInt 1) f1200_0 = Ok (R 1 f1200_0) /\
  __len__ c = 1 /\
  ~ (0 <= -1 < __len__ c) /\
  __getitem__ c (-1) = Ok (R 1 f1200_0).
Proof.
  cbv zeta. split; [reflexivity|]. split; [reflexivity|].
  split; [|reflexivity].
  unfold __len__; simpl. lia.
Qed.

Lemma getitem_spec_witness :
  let c := new_CylinderReadings [R 1 f1200_0; R 2 f1250_5] in
  (exists x, nth_error (_readings c) 1 = Some x /\ __getitem__ c 1 = Ok x) /\
  __getitem__ c 2 = Raise IndexError.
Proof.
  intros c.
  destruct (getitem_spec c 1) as (H1 & _ & _).
  destruct (getitem_spec c 2) as (_ & _ & H2).
  split.
  - apply H1. unfold __len__; simpl. lia.
  - apply H2. right. unfold __len__; simpl. lia.
Defined.

(* ================================================================== *)
(** ** Properties of CylinderReadings: hottest and coolest *)
(* ================================================================== *)

Section Extremum.

Variable op : cmpop.
Hypothesis op_strict : strict op = true.

Let real (r : CylinderReading) : Prop := not_nan_number (value r) = true.

(** The loop of [min] and [max], started on a candidate [m] found at
    position [i] of the readings [seen] so far: no reading seen beats
    the candidate, and the candidate beats every reading before it.
    The loop keeps both facts while it consumes the rest [it]. *)
Lemma min_max_loop_spec (it : list CylinderReading) :
  forall (seen : list CylinderReading) (i : nat) (m : CylinderReading),
    Forall (fun r => real r) (seen ++ it) ->
    nth_error seen i = Some m ->
    (forall j x, nth_error seen j = Some x ->
       richcmp op (value x) (value m) = Ok false) ->
    (forall j x, (j < i)%nat -> nth_error seen j = Some x ->
       richcmp op (value m) (value x) = Ok true) ->
    exists i' r,
      min_max_loop op value m (value m) it = Ok r /\
      nth_error (seen ++ it) i' = Some r /\
      (forall j x, nth_error (seen ++ it) j = Some x ->
         richcmp op (value x) (value r) = Ok false) /\
      (forall j x, (j < i')%nat -> nth_error (seen ++ it) j = Some x ->
         richcmp op (value r) (value x) = Ok true).
Proof.
  induction it as [|y it' IH]; intros seen i m Hreal Hm Hnone Hbefore.
  - rewrite app_nil_r. exists i, m. simpl. auto.
  - assert (Hall := proj1 (Forall_forall _ _) Hreal).
    assert (Hseen : forall j x, nth_error seen j = Some x -> real x).
    { intros j x Hx. apply Hall, in_or_app. left.
      eapply nth_error_In; eassumption. }
    assert (Hy : real y).
    { apply Hall, in_or_app. right. now left. }
    assert (Hmr : real m) by (eapply Hseen; eassumption).
    assert (Hlen : (i < length seen)%nat).
    { apply nth_error_Some. congruence. }
    replace (seen ++ y :: it') with ((seen ++ [y]) ++ it') in *
      by (rewrite <- app_assoc; reflexivity).
    cbn [min_max_loop].
    destruct (richcmp_number op (value y) (value m)) as [t Ht];
      try now apply not_nan_number_isinstance.
    rewrite Ht, bind_Ok. destruct t.
    + (* [y] beats the candidate and replaces it *)
      apply (IH (seen ++ [y]) (length seen) y Hreal).
      * rewrite nth_error_app2, Nat.sub_diag by lia. reflexivity.
      * intros j x Hx.
        destruct (Nat.lt_ge_cases j (length seen)) as [Hj|Hj].
        -- rewrite nth_error_app1 in Hx by exact Hj.
           apply richcmp_asym; try assumption.
           ++ eapply Hseen; eassumption.
           ++ apply richcmp_chain with (value m); try assumption.
              ** eapply Hseen; eassumption.
              ** eapply Hnone; eassumption.
        -- rewrite nth_error_app2 in Hx by exact Hj.
           destruct (j - length seen)%nat as [|k]; simpl in Hx.
           ++ injection Hx as <-. now apply richcmp_irrefl.
           ++ now destruct k.
      * intros j x Hj Hx.
        rewrite nth_error_app1 in Hx by exact Hj.
        apply richcmp_chain with (value m); try assumption.
        -- eapply Hseen; eassumption.
        -- eapply Hnone; eassumption.
    + (* the candidate stays *)
      apply (IH (seen ++ [y]) i m Hreal).
      * rewrite nth_error_app1 by exact Hlen. exact Hm.
      * intros j x Hx.
        destruct (Nat.lt_ge_cases j (length seen)) as [Hj|Hj].
        -- rewrite nth_error_app1 in Hx by exact Hj.
           eapply Hnone; eassumption.
        -- rewrite nth_error_app2 in Hx by exact Hj.
           destruct (j - length seen)%nat as [|k]; simpl in Hx.
           ++ injection Hx as <-. exact Ht.
           ++ now destruct k.
      * intros j x Hj Hx.
        rewrite nth_error_app1 in Hx by lia.
        eapply Hbefore; eassumption.
Qed.

(** On a non-empty list without NaN, [min] and [max] return the first
    reading of extremal value. *)
Lemma min_max_first_extremum (name : string)
  (x : CylinderReading) (l : list CylinderReading) :
  Forall (fun r => real r) (x :: l) ->
  exists i r,
    min_max op name value (x :: l) = Ok r /\
    first_extremum op (x :: l) i r.
Proof.
  intros Hreal.
  assert (Hx : real x) by (inversion Hreal; assumption).
  destruct (min_max_loop_spec l [x] 0%nat x Hreal eq_refl)
    as (i & r & Hrun & Hat & Hnone & Hbefore).
  - intros [|[|j]] z Hz; simpl in Hz; try discriminate.
    injection Hz as <-. now apply richcmp_irrefl.
  - intros j z Hj. lia.
  - exists i, r. split; [exact Hrun|].
    simpl in Hat, Hnone, Hbefore.
    assert (Hall := proj1 (Forall_forall _ _) Hreal).
    assert (Hr : real r).
    { apply Hall. eapply nth_error_In; eassumption. }
    split; [exact Hat|]. split.
    + intros j z Hz. apply richcmp_not_strict_weak; try assumption.
      * apply Hall. eapply nth_error_In; eassumption.
      * eapply Hnone; eassumption.
    + exact Hbefore.
Qed.

End Extremum.

Section Queries.

Variable self : CylinderReadings.

(** C1, as the code has it. On a collection none of whose values is
    NaN, [get_hottest] returns absent when the collection is empty and
    otherwise the reading of maximum value, the first one in stored
    order when several share it. *)
Theorem get_hottest_first_maximum :
  no_nan self -> extremum_query Py_GT get_hottest self.
Proof.
  unfold no_nan, extremum_query, get_hottest.
  destruct (_readings self) as [|x l]; intros Hreal; split;
    try (intros H; congruence); try reflexivity.
  - intros _. cbn [list_truthy negb].
    destruct (min_max_first_extremum Py_GT eq_refl "max" x l Hreal)
      as (i & r & Hrun & Hext).
    exists i, r. split; [|exact Hext].
    unfold py_max. now rewrite Hrun.
Qed.

(** C5, as the code has it. On a collection none of whose values is
    NaN, [get_coolest] returns absent when the collection is empty and
    otherwise the reading of minimum value, the first one in stored
    order when several share it. *)
Theorem get_coolest_first_minimum :
  no_nan self -> extremum_query Py_LT get_coolest self.
Proof.
  unfold no_nan, extremum_query, get_coolest.
  destruct (_readings self) as [|x l]; intros Hreal; split;
    try (intros H; congruence); try reflexivity.
  - intros _. cbn [list_truthy negb].
    destruct (min_max_first_extremum Py_LT eq_refl "min" x l Hreal)
      as (i & r & Hrun & Hext).
    exists i, r. split; [|exact Hext].
    unfold py_min. now rewrite Hrun.
Qed.

End Queries.

Lemma get_hottest_first_maximum_witness :
  let c := new_CylinderReadings [R 1 f1200_0; R 2 f1250_5; R 3 f1180_0] in
  no_nan c /\ extremum_query Py_GT get_hottest c.
Proof.
  intros c. split.
  - repeat constructor.
  - apply (get_hottest_first_maximum c). repeat constructor.
Defined.

Lemma get_coolest_first_minimum_witness :
  let c := new_CylinderReadings [R 1 f1200_0; R 2 f1250_5; R 3 f1180_0] in
  no_nan c /\ extremum_query Py_LT get_coolest c.
Proof.
  intros c. split.
  - repeat constructor.
  - apply (get_coolest_first_minimum c). repeat constructor.
Defined.

(** C1 fails as stated. Both readings below are constructed without
    error. [max] starts from the NaN reading and never leaves it, since
    [1200.0 > nan] is false; the reading returned does not hold the
    maximum value, [nan >= 1200.0] being false as well. Stored in the
    other order, the same two readings give the other answer. *)
Lemma get_hottest_nan_first :
  let c := new_CylinderReadings [R 1 nan; R 2 f1200_0] in
  new_CylinderReading (VInt 1) nan = Ok (R 1 nan) /\
  new_CylinderReading (VInt 2) f1200_0 = Ok (R 2 f1200_0) /\
  get_hottest c = Ok (Some (R 1 nan)) /\
  get_hottest (new_CylinderReadings [R 2 f1200_0; R 1 nan])
  = Ok (Some (R 2 f1200_0)) /\
  py_ge nan f1200_0 = Ok false /\
  ~ extremum_query Py_GT get_hottest c.
Proof.
  intros c. repeat (split; [vm_compute; reflexivity|]).
  intros [_ H]. destruct H as (i & r & Hq & _ & Hge & _); [discriminate|].
  vm_compute in Hq. injection Hq as <-.
  specialize (Hge 1%nat (R 2 f1200_0) eq_refl).
  vm_compute in Hge. discriminate Hge.
Qed.

(** C5 fails as stated, in the same way: [min] starts from the NaN
    reading and [1180.0 < nan] is false, and so is [nan <= 1180.0].
    Stored in the other order, the same two readings give the other
    answer. *)
Lemma get_coolest_nan_first :
  let c := new_CylinderReadings [R 1 nan; R 2 f1180_0] in
  new_CylinderReading (VInt 1) nan = Ok (R 1 nan) /\
  new_CylinderReading (VInt 2) f1180_0 = Ok (R 2 f1180_0) /\
  get_coolest c = Ok (Some (R 1 nan)) /\
  get_coolest (new_CylinderReadings [R 2 f1180_0; R 1 nan])
  = Ok (Some (R 2 f1180_0)) /\
  py_le nan f1180_0 = Ok false /\
  ~ extremum_query Py_LT get_coolest c.
Proof.
  intros c. repeat (split; [vm_compute; reflexivity|]).
  intros [_ H]. destruct H as (i & r & Hq & _ & Hle & _); [discriminate|].
  vm_compute in Hq. injection Hq as <-.
  specialize (Hle 1%nat (R 2 f1180_0) eq_refl).
  vm_compute in Hle. discriminate Hle.
Qed.

(** The cases of the test suite. *)
Example test_get_hottest :
  get_hottest (new_CylinderReadings [R 1 f1200_0; R 2 f1250_5; R 3 f1180_0])
  = Ok (Some (R 2 f1250_5)).
Proof. vm_compute. reflexivity. Qed.

Example test_get_coolest :
  get_coolest (new_CylinderReadings [R 1 f1200_0; R 2 f1250_5; R 3 f1180_0])
  = Ok (Some (R 3 f1180_0)).
Proof. vm_compute. reflexivity. Qed.

Example test_get_difference :
  get_difference
    (new_CylinderReadings [R 1 f1200_0; R 2 f1250_5; R 3 f1180_0])
  = Ok f70_5.
Proof. vm_compute. reflexivity. Qed.

Example test_identical_temperatures :
  let c := new_CylinderReadings [R 1 f1200_0; R 2 f1200_0; R 3 f1200_0] in
  get_hottest c = Ok (Some (R 1 f1200_0)) /\
  get_coolest c = Ok (Some (R 1 f1200_0)) /\
  get_difference c = Ok f0_0.
Proof. vm_compute. repeat split. Qed.

Example test_empty_readings :
  let c := new_CylinderReadings [] in
  __len__ c = 0 /\ get_hottest c = Ok None /\ get_coolest c = Ok None /\
  get_difference c = Ok VNone.
Proof. vm_compute. repeat split. Qed.

(* ================================================================== *)
(** ** Properties of CylinderReadings: the spread *)
(* ================================================================== *)

Section Difference.

Lemma py_sub_not_None (a b : PyVal) : py_sub a b <> Ok VNone.
Proof.
  unfold py_sub.
  destruct (as_int a), (as_int b); try discriminate;
    destruct (isinstance_int_float a && isinstance_int_float b);
    try discriminate;
    destruct (as_float a), (as_float b); simpl; discriminate.
Qed.

Lemma SFsub_diag (f : spec_float) :
  is_finite_number (VFloat f) = true ->
  SFsub prec emax f f = S754_zero false.
Proof.
  destruct f as [s| |  |s m e]; try discriminate; intros _.
  - now destruct s.
  - unfold SFsub. now rewrite Z.sub_diag.
Qed.

(** A finite number minus itself: integer 0 for an [int] or a [bool],
    +0.0 for a [float]. *)
Lemma py_sub_diag (v : PyVal) :
  is_finite_number v = true ->
  exists d, py_sub v v = Ok d /\ (d = f0_0 \/ d = VInt 0) /\
            py_eq d f0_0 = true.
Proof.
  destruct v as [|b|z|f|s]; try discriminate; intros Hv.
  - exists (VInt 0). unfold py_sub; cbn [as_int]. rewrite Z.sub_diag. auto.
  - exists (VInt 0). unfold py_sub; cbn [as_int]. rewrite Z.sub_diag. auto.
  - exists f0_0. unfold py_sub; cbn [as_int isinstance_int_float andb as_float].
    rewrite !bind_Ok, (SFsub_diag f Hv). auto.
Qed.

(** On numbers the loop of [min] and [max] runs to its end, NaN or
    not. *)
Lemma min_max_loop_total (op : cmpop) (it : list CylinderReading) :
  forall m : CylinderReading,
    isinstance_int_float (value m) = true ->
    Forall (fun r => isinstance_int_float (value r) = true) it ->
    exists r, min_max_loop op value m (value m) it = Ok r.
Proof.
  induction it as [|y it' IH]; intros m Hm Hit.
  - now exists m.
  - inversion Hit as [|? ? Hy Hit']; subst. cbn [min_max_loop].
    destruct (richcmp_number op (value y) (value m) Hy Hm) as [t ->].
    rewrite bind_Ok. destruct t; now apply IH.
Qed.

Variable self : CylinderReadings.

(** C4, as the code has it. On a collection whose values are all
    numbers, [get_difference] returns absent exactly when the
    collection is empty; on a non-empty one it is the subtraction
    [get_hottest().value - get_coolest().value], raising when that
    subtraction raises; on a single reading of finite value it returns
    zero, +0.0 for a float and the integer 0 otherwise, which is equal
    to 0.0. *)
Theorem get_difference_spec :
  all_numbers self ->
  (get_difference self = Ok VNone <-> _readings self = []) /\
  (_readings self <> [] ->
   exists h c,
     get_hottest self = Ok (Some h) /\
     get_coolest self = Ok (Some c) /\
     get_difference self = py_sub (value h) (value c)) /\
  (forall r, _readings self = [r] ->
     is_finite_number (value r) = true ->
     exists d, get_difference self = Ok d /\
               (d = f0_0 \/ d = VInt 0) /\ py_eq d f0_0 = true).
Proof.
  unfold all_numbers. intros Hnum.
  assert (Hne : _readings self <> [] ->
     exists h c,
       get_hottest self = Ok (Some h) /\
       get_coolest self = Ok (Some c) /\
       get_difference self = py_sub (value h) (value c)).
  { unfold get_difference, get_hottest, get_coolest, py_max, py_min.
    destruct (_readings self) as [|x l]; [congruence|]. intros _.
    inversion Hnum as [|? ? Hx Hl]; subst.
    cbn [list_truthy negb min_max].
    destruct (min_max_loop_total Py_GT l x Hx Hl) as [h ->].
    destruct (min_max_loop_total Py_LT l x Hx Hl) as [c ->].
    exists h, c. repeat split. }
  split; [|split].
  - split.
    + intros Hd. destruct (_readings self) as [|x l] eqn:E; [reflexivity|].
      destruct Hne as (h & c & _ & _ & Hsub); [discriminate|].
      rewrite Hsub in Hd. now apply py_sub_not_None in Hd.
    + intros E. unfold get_difference, get_hottest, get_coolest.
      now rewrite E.
  - exact Hne.
  - intros r E Hr.
    unfold get_difference, get_hottest, get_coolest. rewrite E.
    cbn [list_truthy negb py_max py_min min_max min_max_loop bind truthy
         andb getattr_value].
    now apply py_sub_diag.
Qed.

End Difference.

Lemma get_difference_spec_witness :
  let c := new_CylinderReadings [R 1 f1200_0] in
  all_numbers c /\
  ((get_difference c = Ok VNone <-> _readings c = []) /\
   (_readings c <> [] ->
    exists h k,
      get_hottest c = Ok (Some h) /\
      get_coolest c = Ok (Some k) /\
      get_difference c = py_sub (value h) (value k)) /\
   (forall r, _readings c = [r] ->
      is_finite_number (value r) = true ->
      exists d, get_difference c = Ok d /\
                (d = f0_0 \/ d = VInt 0) /\ py_eq d f0_0 = true)).
Proof.
  intros c.
  assert (Hc : all_numbers c) by (repeat constructor).
  split; [exact Hc|].
  apply (get_difference_spec c Hc).
Defined.

(** C4 fails as stated. The reading below is constructed without error
    and is alone in its collection, yet the spread is not 0.0:
    [inf - inf] is NaN. *)
Lemma get_difference_single_infinity :
  let c := new_CylinderReadings [R 1 inf] in
  new_CylinderReading (VInt 1) inf = Ok (R 1 inf) /\
  get_difference c = Ok nan /\
  py_eq nan f0_0 = false.
Proof. vm_compute. repeat split. Qed.

(** The subtraction itself can raise: an [int] beyond the range of a
    double cannot be subtracted from or with a float. *)
Example get_difference_overflow :
  get_difference
    (new_CylinderReadings [R 1 (VInt (2 ^ 1024)); R 2 f1200_0])
  = Raise OverflowError.
Proof. vm_compute. reflexivity. Qed.

(* ================================================================== *)
(** ** Properties of EngineData *)
(* ================================================================== *)

Section EngineDataFacts.

(** C7. [EngineData()] leaves every scalar field absent and makes
    [egts] and [chts] empty collections, of length 0. *)
Theorem EngineData_defaults :
  let d := new_EngineData no_args in
  rpm d = VNone /\ manifold_pressure d = VNone /\
  oil_pressure d = VNone /\ oil_temperature d = VNone /\
  fuel_pressure d = VNone /\ volts d = VNone /\
  amps d = VNone /\ g_force d = VNone /\
  _readings (egts d) = [] /\ __len__ (egts d) = 0 /\
  _readings (chts d) = [] /\ __len__ (chts d) = 0.
Proof. cbv zeta. repeat split. Qed.

(** Every scalar field holds the argument of the call when there is
    one and [None] otherwise. *)
Lemma get_scalar_new (f : ScalarField) (a : EngineDataArgs) :
  get_scalar f (new_EngineData a) = param (get_arg f a) VNone.
Proof. now destruct f. Qed.

Lemma get_arg_with_arg_same (f : ScalarField) (v : PyVal)
  (a : EngineDataArgs) :
  get_arg f (with_arg f v a) = Some v.
Proof. now destruct f. Qed.

Lemma get_arg_with_arg_other (f g : ScalarField) (v : PyVal)
  (a : EngineDataArgs) :
  g <> f -> get_arg g (with_arg f v a) = get_arg g a.
Proof. destruct f, g; intros H; try reflexivity; now contradiction H. Qed.

(** C8. Whatever value a call passes for a scalar field, zero and
    negative numbers included, the snapshot holds that very value in
    that field: construction cannot fail and changes no other scalar
    field. A field left out reads [None], which is not a number, and a
    number read from a field was passed by the call: no number stands
    for absence. *)
Theorem EngineData_scalar_roundtrip (f : ScalarField) (v : PyVal)
  (a : EngineDataArgs) :
  get_scalar f (new_EngineData (with_arg f v a)) = v /\
  (forall g, g <> f ->
     get_scalar g (new_EngineData (with_arg f v a))
     = get_scalar g (new_EngineData a)) /\
  (get_arg f a = None -> get_scalar f (new_EngineData a) = VNone) /\
  isinstance_int_float VNone = false /\
  (isinstance_int_float (get_scalar f (new_EngineData a)) = true ->
   get_arg f a = Some (get_scalar f (new_EngineData a))).
Proof.
  rewrite !get_scalar_new, get_arg_with_arg_same.
  split; [reflexivity|]. split; [|split; [|split]].
  - intros g Hg. now rewrite !get_scalar_new, get_arg_with_arg_other.
  - now intros ->.
  - reflexivity.
  - destruct (get_arg f a); [reflexivity | discriminate].
Qed.

(** The call [EngineData(rpm=0.0, volts=0.0, g_force=-0.5)]. *)
Example test_zero_and_negative_values :
  let d := new_EngineData
             (with_arg Rpm f0_0
                (with_arg Volts f0_0
                   (with_arg GForce (float_lit (-1) (-1)) no_args))) in
  rpm d = f0_0 /\ volts d = f0_0 /\ g_force d = float_lit (-1) (-1) /\
  amps d = VNone.
Proof. cbv zeta. repeat split. Qed.

End EngineDataFacts.

(* ================================================================== *)
(** ** Further properties of CylinderReading: the cylinder number *)
(* ================================================================== *)

Section NumberCheck.




(** X2. A boolean cylinder number is compared as the integer it is:
    [True] is accepted, and stored as the boolean, while [False] is
    rejected with InvalidCylinderNumber. *)
Theorem new_CylinderReading_bool_number (b : bool) (v : PyVal) :
  isinstance_int_float v = true ->
  new_CylinderReading (VBool b) v =
  if b then Ok {| number := VBool true; value := v |}
  else Raise InvalidCylinderNumber.
Proof.
  intros Hv.
  unfold new_CylinderReading, __post_init__; cbn [number value].
  replace (py_lt (VBool b) (VInt 1)) with (@Ok bool (negb b))
    by (now destruct b).
  rewrite bind_Ok. destruct b; cbn [negb]; [|reflexivity].
  now rewrite Hv.
Qed.

Lemma new_CylinderReading_bool_number_witness :
  new_CylinderReading (VBool false) f1200_0 = Raise InvalidCylinderNumber.
Proof.
  apply (new_CylinderReading_bool_number false f1200_0). reflexivity.
Defined.

Lemma xcompare_Qeq_r (x : xnum) (p q : Q) :
  (p == q)%Q -> xcompare x (XFin p) = xcompare x (XFin q).
Proof.
  intros H. destruct x as [|s|r]; simpl; try reflexivity.
  now rewrite H.
Qed.

Lemma one_denote : float_denote one = XFin (F2Q false 4503599627370496 (-52)).
Proof. reflexivity. Qed.

(** Against the integer 1 a double compares as against the double
    1.0. *)
Lemma py_lt_float_one (f : spec_float) :
  valid_binary prec emax f = true ->
  py_lt (VFloat f) (VInt 1) = Ok (SFltb f one).
Proof.
  intros Vf. unfold py_lt, richcmp, SFltb; cbn [denote].
  rewrite (xcompare_Qeq_r _ _ (F2Q false 4503599627370496 (-52)))
    by reflexivity.
  rewrite <- one_denote, (float_compare_denote f one Vf eq_refl).
  now destruct (SFcompare f one) as [[| |]|].
Qed.

(** X3. A float cylinder number is rejected with InvalidCylinderNumber
    exactly when it is less than 1.0 in the IEEE 754 order, and is
    otherwise stored as it is. NaN is less than nothing, so a NaN
    cylinder number is accepted, and so is positive infinity. *)
Theorem new_CylinderReading_float_number (f : spec_float) (v : PyVal) :
  valid_binary prec emax f = true ->
  isinstance_int_float v = true ->
  new_CylinderReading (VFloat f) v =
  if SFltb f one then Raise InvalidCylinderNumber
  else Ok {| number := VFloat f; value := v |}.
Proof.
  intros Vf Hv.
  unfold new_CylinderReading, __post_init__; cbn [number value].
  rewrite (py_lt_float_one f Vf), bind_Ok.
  destruct (SFltb f one); [reflexivity|].
  now rewrite Hv.
Qed.

Lemma new_CylinderReading_float_number_witness :
  new_CylinderReading nan f1200_0 = Ok {| number := nan; value := f1200_0 |}.
Proof.
  apply (new_CylinderReading_float_number S754_nan f1200_0); reflexivity.
Defined.

End NumberCheck.

(* ================================================================== *)
(** ** Further properties of CylinderReadings: access *)
(* ================================================================== *)

Section Access.

Lemma list_getitem_Ok {A : Type} (l : list A) (i : Z) (x : A) :
  list_getitem l i = Ok x -> exists k, nth_error l k = Some x.
Proof.
  unfold list_getitem.
  destruct ((_ <? 0) || (_ <=? _)); [discriminate|].
  destruct (nth_error l _) as [y|] eqn:E; [|discriminate].
  intros H; injection H as <-. eexists; exact E.
Qed.

Lemma list_getitem_nonneg {A : Type} (l : list A) (k : nat) (x : A) :
  nth_error l k = Some x -> list_getitem l (Z.of_nat k) = Ok x.
Proof.
  intros E. unfold list_getitem.
  assert (Hk : (k < length l)%nat) by (apply nth_error_Some; congruence).
  destruct (Z.ltb_spec (Z.of_nat k) 0); [lia|].
  destruct (Z.ltb_spec (Z.of_nat k) 0); [lia|].
  destruct (Z.leb_spec (Z.of_nat (length l)) (Z.of_nat k)); [lia|]. simpl.
  now rewrite Nat2Z.id, E.
Qed.

Variable self : CylinderReadings.

(** X4. Subscripting and iteration see the same readings: whatever a
    subscript returns is among the readings that iteration yields, and
    every reading that iteration yields is returned by the subscript of
    a position in [[0, length)]. *)
Theorem getitem_iter :
  (forall i x, __getitem__ self i = Ok x -> In x (__iter__ self)) /\
  (forall x, In x (__iter__ self) ->
     exists i, 0 <= i < __len__ self /\ __getitem__ self i = Ok x).
Proof.
  unfold __getitem__, __iter__, __len__. split.
  - intros i x H. apply list_getitem_Ok in H as [k Hk].
    eapply nth_error_In; eassumption.
  - intros x H. apply In_nth_error in H as [k Hk].
    exists (Z.of_nat k). split.
    + assert ((k < length (_readings self))%nat)
        by (apply nth_error_Some; congruence). lia.
    + now apply list_getitem_nonneg.
Qed.

(** X5. A negative index in range is another name for a position: the
    subscripts [i] and [i + length] return the same reading. *)
Theorem getitem_negative_alias (i : Z) :
  - __len__ self <= i < 0 ->
  __getitem__ self i = __getitem__ self (i + __len__ self) /\
  exists x, __getitem__ self i = Ok x.
Proof.
  unfold __getitem__, __len__, list_getitem.
  set (n := Z.of_nat (length (_readings self))). intros H.
  destruct (Z.ltb_spec i 0); [|lia].
  destruct (Z.ltb_spec (i + n) 0); [lia|].
  destruct (Z.ltb_spec (i + n) 0); [lia|].
  destruct (Z.leb_spec n (i + n)); [lia|]. simpl.
  split; [reflexivity|].
  destruct (nth_error (_readings self) (Z.to_nat (i + n))) as [x|] eqn:E.
  - now exists x.
  - apply nth_error_None in E. lia.
Qed.

End Access.

Lemma getitem_negative_alias_witness :
  let c := new_CylinderReadings [R 1 f1200_0; R 2 f1250_5] in
  __getitem__ c (-1) = __getitem__ c (-1 + __len__ c) /\
  exists x, __getitem__ c (-1) = Ok x.
Proof.
  intros c. apply (getitem_negative_alias c (-1)).
  unfold __len__; simpl. lia.
Defined.

(* ================================================================== *)
(** ** Further properties of CylinderReadings: the queries on any
       contents *)
(* ================================================================== *)

Section AnyContents.

(** Whatever the loop returns is the candidate it started from or one
    of the items it went through. *)
Lemma min_max_loop_In {A : Type} (op : cmpop) (key : A -> PyVal)
  (it : list A) :
  forall (m : A) (mv : PyVal) (r : A),
    min_max_loop op key m mv it = Ok r -> r = m \/ In r it.
Proof.
  induction it as [|y it' IH]; intros m mv r; cbn [min_max_loop].
  - intros H; injection H as <-. now left.
  - destruct (richcmp op (key y) mv) as [[|]|e]; simpl; try discriminate;
      intros H; apply IH in H as [->|H]; simpl; auto.
Qed.

Lemma min_max_In {A : Type} (op : cmpop) (name : string) (key : A -> PyVal)
  (l : list A) (r : A) :
  min_max op name key l = Ok r -> In r l.
Proof.
  destruct l as [|x l]; [discriminate|]. cbn [min_max].
  intros H. apply min_max_loop_In in H as [->|H]; simpl; auto.
Qed.

Variable self : CylinderReadings.

(** X6. Whatever the readings hold, valid or not: [get_hottest] and
    [get_coolest] return absent exactly on the empty collection, and a
    reading that either returns is one of the collection. *)
Theorem extremum_is_member :
  (get_hottest self = Ok None <-> _readings self = []) /\
  (get_coolest self = Ok None <-> _readings self = []) /\
  (forall r, get_hottest self = Ok (Some r) -> In r (__iter__ self)) /\
  (forall r, get_coolest self = Ok (Some r) -> In r (__iter__ self)).
Proof.
  unfold get_hottest, get_coolest, __iter__, py_max, py_min.
  destruct (_readings self) as [|x l]; cbn [list_truthy negb].
  - repeat split; auto; discriminate.
  - repeat split; try discriminate.
    + destruct (min_max Py_GT "max" value (x :: l)); discriminate.
    + destruct (min_max Py_LT "min" value (x :: l)); discriminate.
    + intros r.
      destruct (min_max Py_GT "max" value (x :: l)) as [h|e] eqn:E;
        [|discriminate].
      intros H; injection H as <-. eapply min_max_In; eassumption.
    + intros r.
      destruct (min_max Py_LT "min" value (x :: l)) as [h|e] eqn:E;
        [|discriminate].
      intros H; injection H as <-. eapply min_max_In; eassumption.
Qed.

End AnyContents.

(* ================================================================== *)
(** ** Further properties of CylinderReadings: extremes without NaN *)
(* ================================================================== *)

Section Extremes.

(** [a >= b] is [b <= a]. *)
Lemma richcmp_flip (a b : PyVal) :
  not_nan_number a = true -> not_nan_number b = true ->
  richcmp Py_GE a b = richcmp Py_LE b a.
Proof.
  intros Ha Hb.
  destruct (not_nan_number_denote a Ha) as (x & Hx & Hnx).
  destruct (not_nan_number_denote b Hb) as (y & Hy & Hny).
  rewrite (richcmp_denote _ a b x y Hx Hy), (richcmp_denote _ b a y x Hy Hx).
  destruct (xcompare_total x y Hnx Hny) as [c Hc].
  rewrite Hc, (xcompare_antisym x y c Hc). now destruct c.
Qed.

(** Two numbers each weakly on the same side of the other are equal. *)
Lemma richcmp_weak_antisym (op : cmpop) (a b : PyVal) :
  strict op = true ->
  not_nan_number a = true -> not_nan_number b = true ->
  richcmp (weak op) a b = Ok true -> richcmp (weak op) b a = Ok true ->
  py_eq a b = true.
Proof.
  intros Hop Ha Hb.
  destruct (not_nan_number_denote a Ha) as (x & Hx & Hnx).
  destruct (not_nan_number_denote b Hb) as (y & Hy & Hny).
  rewrite (richcmp_denote _ a b x y Hx Hy), (richcmp_denote _ b a y x Hy Hx).
  unfold py_eq. rewrite Hx, Hy.
  destruct (xcompare_total x y Hnx Hny) as [c Hc].
  rewrite Hc, (xcompare_antisym x y c Hc).
  now destruct op, c.
Qed.

(** Equal numbers are on neither strict side of each other. *)
Lemma py_eq_not_strict (op : cmpop) (a b : PyVal) :
  strict op = true ->
  isinstance_int_float a = true -> isinstance_int_float b = true ->
  py_eq a b = true -> richcmp op a b = Ok false.
Proof.
  intros Hop Ha Hb.
  destruct (isinstance_denote a Ha) as [x Hx].
  destruct (isinstance_denote b Hb) as [y Hy].
  rewrite (richcmp_denote _ a b x y Hx Hy).
  unfold py_eq. rewrite Hx, Hy.
  destruct (xcompare x y) as [[| |]|]; try discriminate.
  now destruct op.
Qed.

(** What [min] and [max] return on readings without NaN is the first
    reading of extremal value. *)
Lemma min_max_Ok_extremum (op : cmpop) (name : string)
  (l : list CylinderReading) (r : CylinderReading) :
  strict op = true ->
  Forall (fun x => not_nan_number (value x) = true) l ->
  min_max op name value l = Ok r ->
  exists i, first_extremum op l i r.
Proof.
  intros Hop Hl Hr. destruct l as [|x l]; [discriminate|].
  destruct (min_max_first_extremum op Hop name x l Hl) as (i & r' & H & Hext).
  rewrite H in Hr. injection Hr as <-. now exists i.
Qed.

Lemma get_hottest_extremum (self : CylinderReadings) (r : CylinderReading) :
  no_nan self -> get_hottest self = Ok (Some r) ->
  exists i, first_extremum Py_GT (_readings self) i r.
Proof.
  unfold no_nan, get_hottest, py_max. intros Hl.
  destruct (negb _); [discriminate|].
  destruct (min_max Py_GT "max" value (_readings self)) as [h|e] eqn:E;
    [|discriminate].
  intros H; injection H as <-.
  eapply min_max_Ok_extremum; try eassumption. reflexivity.
Qed.

Lemma get_coolest_extremum (self : CylinderReadings) (r : CylinderReading) :
  no_nan self -> get_coolest self = Ok (Some r) ->
  exists i, first_extremum Py_LT (_readings self) i r.
Proof.
  unfold no_nan, get_coolest, py_min. intros Hl.
  destruct (negb _); [discriminate|].
  destruct (min_max Py_LT "min" value (_readings self)) as [h|e] eqn:E;
    [|discriminate].
  intros H; injection H as <-.
  eapply min_max_Ok_extremum; try eassumption. reflexivity.
Qed.

Lemma first_extremum_In (op : cmpop) (l : list CylinderReading) (i : nat)
  (r x : CylinderReading) :
  first_extremum op l i r -> In x l ->
  In r l /\ richcmp (weak op) (value r) (value x) = Ok true.
Proof.
  intros (Hat & Hall & _) Hx. split.
  - eapply nth_error_In; eassumption.
  - apply In_nth_error in Hx as [j Hj]. eapply Hall; eassumption.
Qed.

Lemma first_extremum_weak (op : cmpop) (l : list CylinderReading) (i : nat)
  (r x : CylinderReading) :
  first_extremum op l i r -> In x l ->
  richcmp (weak op) (value r) (value x) = Ok true.
Proof. intros H Hx. now destruct (first_extremum_In op l i r x H Hx). Qed.

Lemma no_nan_In (self : CylinderReadings) (x : CylinderReading) :
  no_nan self -> In x (_readings self) -> not_nan_number (value x) = true.
Proof.
  unfold no_nan. rewrite Forall_forall. auto.
Qed.

(** X7. Without NaN every reading lies between the coolest and the
    hottest, and so the coolest value is at most the hottest. *)
Theorem readings_between_extremes (self : CylinderReadings)
  (h c : CylinderReading) :
  no_nan self ->
  get_hottest self = Ok (Some h) ->
  get_coolest self = Ok (Some c) ->
  py_le (value c) (value h) = Ok true /\
  (forall x, In x (__iter__ self) ->
     py_le (value c) (value x) = Ok true /\
     py_le (value x) (value h) = Ok true).
Proof.
  intros Hn Hh Hc.
  destruct (get_hottest_extremum self h Hn Hh) as [i Hi].
  destruct (get_coolest_extremum self c Hn Hc) as [j Hj].
  assert (Hbetween : forall x, In x (_readings self) ->
            py_le (value c) (value x) = Ok true /\
            py_le (value x) (value h) = Ok true).
  { intros x Hx.
    destruct (first_extremum_In _ _ _ _ x Hi Hx) as [Hhin Hge].
    destruct (first_extremum_In _ _ _ _ x Hj Hx) as [_ Hle].
    split; [exact Hle|].
    unfold py_le. rewrite <- richcmp_flip; [exact Hge| |];
      eapply no_nan_In; eassumption. }
  split; [|exact Hbetween].
  assert (Hin : In h (_readings self)).
  { destruct Hi as (Hat & _). eapply nth_error_In; eassumption. }
  now destruct (Hbetween h Hin) as [H _].
Qed.

(** X8. Without NaN the extremes follow the contents: when every reading
    of [a] is also in [b], the hottest value of [b] is at least that
    of [a] and the coolest value of [b] at most that of [a]. *)
Theorem extremes_monotone (a b : CylinderReadings) :
  no_nan a -> no_nan b ->
  incl (__iter__ a) (__iter__ b) ->
  (forall h h', get_hottest a = Ok (Some h) ->
                get_hottest b = Ok (Some h') ->
                py_ge (value h') (value h) = Ok true) /\
  (forall c c', get_coolest a = Ok (Some c) ->
                get_coolest b = Ok (Some c') ->
                py_le (value c') (value c) = Ok true).
Proof.
  unfold __iter__. intros Ha Hb Hincl. split.
  - intros h h' Hh Hh'.
    destruct (get_hottest_extremum a h Ha Hh) as [i (Hat & _)].
    destruct (get_hottest_extremum b h' Hb Hh') as [j Hj].
    apply (first_extremum_weak Py_GT (_readings b) j h' h Hj).
    apply Hincl. eapply nth_error_In; eassumption.
  - intros c c' Hc Hc'.
    destruct (get_coolest_extremum a c Ha Hc) as [i (Hat & _)].
    destruct (get_coolest_extremum b c' Hb Hc') as [j Hj].
    apply (first_extremum_weak Py_LT (_readings b) j c' c Hj).
    apply Hincl. eapply nth_error_In; eassumption.
Qed.

(** X9. Without NaN the extreme values do not depend on the stored order:
    two collections holding the same readings in any order have equal
    hottest values and equal coolest values. Only the reading picked
    among equal values depends on the order. *)
Theorem extremes_permutation (a b : CylinderReadings) :
  no_nan a ->
  Permutation (__iter__ a) (__iter__ b) ->
  (forall h h', get_hottest a = Ok (Some h) ->
                get_hottest b = Ok (Some h') ->
                py_eq (value h) (value h') = true) /\
  (forall c c', get_coolest a = Ok (Some c) ->
                get_coolest b = Ok (Some c') ->
                py_eq (value c) (value c') = true).
Proof.
  unfold __iter__. intros Ha Hperm.
  assert (Hb : no_nan b).
  { unfold no_nan in *. eapply Permutation_Forall; eassumption. }
  assert (Hab : incl (_readings a) (_readings b)).
  { intros x Hx. eapply Permutation_in; eassumption. }
  assert (Hba : incl (_readings b) (_readings a)).
  { intros x Hx. eapply Permutation_in; [symmetry|]; eassumption. }
  split.
  - intros h h' Hh Hh'.
    destruct (get_hottest_extremum a h Ha Hh) as [i Hi].
    destruct (get_hottest_extremum b h' Hb Hh') as [j Hj].
    assert (Hin : In h (_readings a))
      by (destruct Hi as (Hat & _); eapply nth_error_In; eassumption).
    assert (Hin' : In h' (_readings b))
      by (destruct Hj as (Hat & _); eapply nth_error_In; eassumption).
    apply (richcmp_weak_antisym Py_GT); try reflexivity.
    + exact (no_nan_In a h Ha Hin).
    + exact (no_nan_In b h' Hb Hin').
    + eapply first_extremum_weak; [exact Hi|]. now apply Hba.
    + eapply first_extremum_weak; [exact Hj|]. now apply Hab.
  - intros c c' Hc Hc'.
    destruct (get_coolest_extremum a c Ha Hc) as [i Hi].
    destruct (get_coolest_extremum b c' Hb Hc') as [j Hj].
    assert (Hin : In c (_readings a))
      by (destruct Hi as (Hat & _); eapply nth_error_In; eassumption).
    assert (Hin' : In c' (_readings b))
      by (destruct Hj as (Hat & _); eapply nth_error_In; eassumption).
    apply (richcmp_weak_antisym Py_LT); try reflexivity.
    + exact (no_nan_In a c Ha Hin).
    + exact (no_nan_In b c' Hb Hin').
    + eapply first_extremum_weak; [exact Hi|]. now apply Hba.
    + eapply first_extremum_weak; [exact Hj|]. now apply Hab.
Qed.

(** The loop keeps its first candidate when no item beats it. *)
Lemma min_max_loop_keeps (op : cmpop) (it : list CylinderReading)
  (m : CylinderReading) :
  (forall y, In y it -> richcmp op (value y) (value m) = Ok false) ->
  min_max_loop op value m (value m) it = Ok m.
Proof.
  induction it as [|y it' IH]; intros H; cbn [min_max_loop].
  - reflexivity.
  - rewrite (H y (or_introl eq_refl)), bind_Ok.
    apply IH. intros z Hz. apply H. now right.
Qed.

(** X10. When every reading holds a number equal to the first one's, the
    first reading is both the hottest and the coolest. *)
Theorem identical_values_first (self : CylinderReadings)
  (x : CylinderReading) (l : list CylinderReading) :
  _readings self = x :: l ->
  all_numbers self ->
  (forall y, In y l -> py_eq (value y) (value x) = true) ->
  get_hottest self = Ok (Some x) /\ get_coolest self = Ok (Some x).
Proof.
  unfold all_numbers, get_hottest, get_coolest, py_max, py_min.
  intros -> Hnum Heq. inversion Hnum as [|? ? Hx Hl]; subst.
  rewrite Forall_forall in Hl.
  cbn [list_truthy negb min_max].
  rewrite !min_max_loop_keeps; [split; reflexivity| |];
    intros y Hy; apply py_eq_not_strict; auto.
Qed.

End Extremes.

Lemma readings_between_extremes_witness :
  let c := new_CylinderReadings [R 1 f1200_0; R 2 f1250_5; R 3 f1180_0] in
  py_le f1180_0 f1250_5 = Ok true /\
  (forall x, In x (__iter__ c) ->
     py_le f1180_0 (value x) = Ok true /\
     py_le (value x) f1250_5 = Ok true).
Proof.
  intros c.
  apply (readings_between_extremes c (R 2 f1250_5) (R 3 f1180_0)).
  - repeat constructor.
  - vm_compute. reflexivity.
  - vm_compute. reflexivity.
Defined.

Lemma extremes_monotone_witness :
  let a := new_CylinderReadings [R 1 f1200_0] in
  let b := new_CylinderReadings [R 2 f1250_5; R 1 f1200_0; R 3 f1180_0] in
  (forall h h', get_hottest a = Ok (Some h) ->
                get_hottest b = Ok (Some h') ->
                py_ge (value h') (value h) = Ok true) /\
  (forall c c', get_coolest a = Ok (Some c) ->
                get_coolest b = Ok (Some c') ->
                py_le (value c') (value c) = Ok true).
Proof.
  intros a b. apply (extremes_monotone a b).
  - repeat constructor.
  - repeat constructor.
  - intros x [<-|[]]. right. now left.
Defined.

Lemma extremes_permutation_witness :
  let a := new_CylinderReadings [R 1 f1200_0; R 2 f1250_5] in
  let b := new_CylinderReadings [R 2 f1250_5; R 1 f1200_0] in
  (forall h h', get_hottest a = Ok (Some h) ->
                get_hottest b = Ok (Some h') ->
                py_eq (value h) (value h') = true) /\
  (forall c c', get_coolest a = Ok (Some c) ->
                get_coolest b = Ok (Some c') ->
                py_eq (value c) (value c') = true).
Proof.
  intros a b. apply (extremes_permutation a b).
  - repeat constructor.
  - apply perm_swap.
Defined.

Lemma identical_values_first_witness :
  let c := new_CylinderReadings [R 1 f1200_0; R 2 f1200_0; R 3 f1200_0] in
  get_hottest c = Ok (Some (R 1 f1200_0)) /\
  get_coolest c = Ok (Some (R 1 f1200_0)).
Proof.
  intros c.
  apply (identical_values_first c (R 1 f1200_0) [R 2 f1200_0; R 3 f1200_0]).
  - reflexivity.
  - repeat constructor.
  - intros y [<-|[<-|[]]]; vm_compute; reflexivity.
Defined.

(* ================================================================== *)
(** ** Further properties of CylinderReadings: the spread *)
(* ================================================================== *)

Section Spread.

(** On a non-empty collection of numbers the spread is the subtraction
    of the values of two of its readings, the hottest and the
    coolest. *)
Lemma get_difference_sub (self : CylinderReadings) :
  all_numbers self -> _readings self <> [] ->
  exists h c,
    get_hottest self = Ok (Some h) /\ get_coolest self = Ok (Some c) /\
    In h (_readings self) /\ In c (_readings self) /\
    get_difference self = py_sub (value h) (value c).
Proof.
  unfold all_numbers, get_difference, get_hottest, get_coolest, py_max, py_min.
  destruct (_readings self) as [|x l]; [congruence|]. intros Hnum _.
  inversion Hnum as [|? ? Hx Hl]; subst.
  cbn [list_truthy negb].
  destruct (min_max Py_GT "max" value (x :: l)) as [h|e] eqn:Eh.
  2:{ cbn [min_max] in Eh.
      destruct (min_max_loop_total Py_GT l x Hx Hl) as [h Hh]. congruence. }
  destruct (min_max Py_LT "min" value (x :: l)) as [c|e] eqn:Ec.
  2:{ cbn [min_max] in Ec.
      destruct (min_max_loop_total Py_LT l x Hx Hl) as [c Hc]. congruence. }
  exists h, c. repeat split.
  - eapply min_max_In; eassumption.
  - eapply min_max_In; eassumption.
Qed.

Lemma as_float_number (v : PyVal) :
  isinstance_int_float v = true ->
  (exists f, as_float v = Ok f) \/ as_float v = Raise OverflowError.
Proof.
  destruct v as [|b|z|f|s]; try discriminate; intros _; cbn [as_float].
  - unfold float_of_int. destruct (is_infinity _); eauto.
  - unfold float_of_int. destruct (is_infinity _); eauto.
  - eauto.
Qed.

(** Between two numbers a subtraction returns, or raises
    [OverflowError]. *)
Lemma py_sub_number (a b : PyVal) :
  isinstance_int_float a = true -> isinstance_int_float b = true ->
  (exists d, py_sub a b = Ok d) \/ py_sub a b = Raise OverflowError.
Proof.
  intros Ha Hb. unfold py_sub. rewrite Ha, Hb. cbn [andb].
  destruct (as_int a), (as_int b); eauto;
    destruct (as_float_number a Ha) as [[x ->]| ->]; cbn [bind]; eauto;
    destruct (as_float_number b Hb) as [[y ->]| ->]; cbn [bind]; eauto.
Qed.

Lemma py_sub_floats (a b : PyVal) :
  is_float a = true -> is_float b = true ->
  exists f g, a = VFloat f /\ b = VFloat g /\
              py_sub a b = Ok (VFloat (SFsub prec emax f g)).
Proof.
  destruct a as [| | |f|], b as [| | |g|]; try discriminate.
  intros _ _. exists f, g. repeat split.
Qed.

Lemma py_sub_ints (a b : PyVal) :
  is_int a = true -> is_int b = true ->
  exists x y, as_int a = Some x /\ as_int b = Some y /\
              py_sub a b = Ok (VInt (x - y)).
Proof.
  destruct a as [|p|x| |], b as [|q|y| |]; try discriminate; intros _ _;
    eexists; eexists; repeat split.
Qed.

(** X11. On numbers the only exception of [get_difference] is the
    [OverflowError] of converting an [int] too large for a double, and
    that needs an [int] and a [float] together: when all values are
    floats, or all are integers, [get_difference] returns. *)
Theorem get_difference_errors (self : CylinderReadings) :
  all_numbers self ->
  (forall e, get_difference self = Raise e -> e = OverflowError) /\
  (all_floats self \/ all_ints self ->
   exists d, get_difference self = Ok d).
Proof.
  intros Hnum.
  destruct (_readings self) as [|x0 l0] eqn:E.
  - assert (Hd : get_difference self = Ok VNone).
    { unfold get_difference, get_hottest, get_coolest. now rewrite E. }
    rewrite Hd. split; [discriminate | eauto].
  - destruct (get_difference_sub self Hnum) as (h & c & _ & _ & Hh & Hc & ->).
    { congruence. }
    assert (Hall := proj1 (Forall_forall _ _) Hnum).
    split.
    + intros e He.
      destruct (py_sub_number (value h) (value c) (Hall h Hh) (Hall c Hc))
        as [[d Hd]|Hd]; rewrite Hd in He; [discriminate|].
      now injection He as <-.
    + unfold all_floats, all_ints. rewrite !Forall_forall. intros [Hf|Hi].
      * destruct (py_sub_floats (value h) (value c) (Hf h Hh) (Hf c Hc))
          as (f & g & _ & _ & ->). eauto.
      * destruct (py_sub_ints (value h) (value c) (Hi h Hh) (Hi c Hc))
          as (p & q & _ & _ & ->). eauto.
Qed.

(** *** Integer readings *)

Lemma richcmp_as_int (op : cmpop) (a b : PyVal) (x y : Z) :
  as_int a = Some x -> as_int b = Some y ->
  richcmp op a b = Ok (cmp_test op (Some (x ?= y))).
Proof.
  intros Ha Hb.
  assert (Da : denote a = Some (XFin (inject_Z x))).
  { destruct a; try discriminate; simpl in *; congruence. }
  assert (Db : denote b = Some (XFin (inject_Z y))).
  { destruct b; try discriminate; simpl in *; congruence. }
  rewrite (richcmp_denote op a b _ _ Da Db). cbn [xcompare].
  now rewrite Qcompare_inject_Z.
Qed.

Lemma is_int_not_nan (v : PyVal) :
  is_int v = true -> not_nan_number v = true.
Proof. now destruct v. Qed.

Lemma is_int_as_int (r : CylinderReading) :
  is_int (value r) = true -> as_int (value r) = Some (int_value r).
Proof.
  unfold int_value. now destruct (value r).
Qed.

(** X12. When every value is an integer the spread is exact: it is the
    integer [hottest - coolest], it is not negative, no two readings
    differ by more, and two readings differ by exactly that much. *)
Theorem int_spread (self : CylinderReadings) :
  all_ints self -> _readings self <> [] ->
  exists d,
    get_difference self = Ok (VInt d) /\
    0 <= d /\
    (forall x y, In x (__iter__ self) -> In y (__iter__ self) ->
       int_value x - int_value y <= d) /\
    (exists x y, In x (__iter__ self) /\ In y (__iter__ self) /\
       d = int_value x - int_value y).
Proof.
  unfold __iter__. intros Hint Hne.
  assert (Hi := proj1 (Forall_forall _ _) Hint).
  assert (Hnn : no_nan self).
  { unfold no_nan. apply Forall_forall. intros x Hx.
    apply is_int_not_nan. now apply Hi. }
  assert (Hnum : all_numbers self).
  { unfold all_numbers. apply Forall_forall. intros x Hx.
    apply not_nan_number_isinstance, is_int_not_nan. now apply Hi. }
  destruct (get_difference_sub self Hnum Hne)
    as (h & c & Hh & Hc & Hhin & Hcin & Hd).
  destruct (get_hottest_extremum self h Hnn Hh) as [i Hext].
  destruct (get_coolest_extremum self c Hnn Hc) as [j Hext'].
  assert (Hmax : forall x, In x (_readings self) -> int_value x <= int_value h).
  { intros x Hx.
    pose proof (first_extremum_weak _ _ _ _ x Hext Hx) as H.
    rewrite (richcmp_as_int _ _ _ _ _ (is_int_as_int h (Hi h Hhin))
               (is_int_as_int x (Hi x Hx))) in H.
    cbn [weak cmp_test] in H.
    destruct (Z.compare_spec (int_value h) (int_value x)); try discriminate;
      lia. }
  assert (Hmin : forall x, In x (_readings self) -> int_value c <= int_value x).
  { intros x Hx.
    pose proof (first_extremum_weak _ _ _ _ x Hext' Hx) as H.
    rewrite (richcmp_as_int _ _ _ _ _ (is_int_as_int c (Hi c Hcin))
               (is_int_as_int x (Hi x Hx))) in H.
    cbn [weak cmp_test] in H.
    destruct (Z.compare_spec (int_value c) (int_value x)); try discriminate;
      lia. }
  exists (int_value h - int_value c). repeat split.
  - rewrite Hd.
    destruct (py_sub_ints (value h) (value c) (Hi h Hhin) (Hi c Hcin))
      as (p & q & Hp & Hq & ->).
    rewrite (is_int_as_int h (Hi h Hhin)) in Hp.
    rewrite (is_int_as_int c (Hi c Hcin)) in Hq. congruence.
  - specialize (Hmax c Hcin). lia.
  - intros x y Hx Hy. specialize (Hmax x Hx). specialize (Hmin y Hy). lia.
  - exists h, c. auto.
Qed.

End Spread.

Lemma get_difference_errors_witness :
  let c := new_CylinderReadings [R 1 (VInt (2 ^ 1024)); R 2 f1200_0] in
  (forall e, get_difference c = Raise e -> e = OverflowError) /\
  (all_floats c \/ all_ints c -> exists d, get_difference c = Ok d).
Proof.
  intros c. apply (get_difference_errors c). repeat constructor.
Defined.

Lemma int_spread_witness :
  let c := new_CylinderReadings
             [R 1 (VInt 1200); R 2 (VInt 1250); R 3 (VBool true)] in
  exists d,
    get_difference c = Ok (VInt d) /\
    0 <= d /\
    (forall x y, In x (__iter__ c) -> In y (__iter__ c) ->
       int_value x - int_value y <= d) /\
    (exists x y, In x (__iter__ c) /\ In y (__iter__ c) /\
       d = int_value x - int_value y).
Proof.
  intros c. apply (int_spread c).
  - repeat constructor.
  - discriminate.
Defined.

(* ================================================================== *)
(** ** Further properties of CylinderReadings: the spread of floats *)
(* ================================================================== *)

Section FloatSpread.

(** *** Rounding keeps the sign *)

Lemma iter_pos_invariant {A : Type} (f : A -> A) (P : A -> Prop) :
  (forall x, P x -> P (f x)) ->
  forall (n : positive) (x : A), P x -> P (iter_pos f n x).
Proof.
  intros Hf. induction n as [n IH|n IH|]; intros x Hx; cbn [iter_pos]; auto.
Qed.

Lemma shr_1_nonneg (mrs : shr_record) :
  0 <= shr_m mrs -> 0 <= shr_m (shr_1 mrs).
Proof.
  destruct mrs as [m r s]. destruct m as [|[p|p|]|p]; simpl; lia.
Qed.

Lemma shr_fexp_nonneg (m e : Z) (l : location) :
  0 <= m -> 0 <= shr_m (fst (shr_fexp prec emax m e l)).
Proof.
  intros Hm. unfold shr_fexp, shr.
  assert (H0 : 0 <= shr_m (shr_record_of_loc m l))
    by (destruct l as [|[| |]]; exact Hm).
  destruct (fexp prec emax (Zdigits2 m + e) - e) as [|p|p]; cbn [fst];
    try exact H0.
  apply (iter_pos_invariant shr_1 (fun x => 0 <= shr_m x) shr_1_nonneg).
  exact H0.
Qed.

Lemma round_nearest_even_nonneg (m : Z) (l : location) :
  0 <= m -> 0 <= round_nearest_even m l.
Proof.
  intros Hm. destruct l as [|[| |]]; cbn [round_nearest_even]; try lia.
  destruct (Z.even m); lia.
Qed.

Lemma binary_round_aux_nonneg (m e : Z) (l : location) :
  0 <= m -> nonneg_float (binary_round_aux prec emax false m e l) = true.
Proof.
  intros Hm. unfold binary_round_aux.
  pose proof (shr_fexp_nonneg m e l Hm) as H1.
  destruct (shr_fexp prec emax m e l) as [mrs1 e1]. cbn [fst] in H1.
  pose proof (shr_fexp_nonneg
                (round_nearest_even (shr_m mrs1) (loc_of_shr_record mrs1))
                e1 loc_Exact (round_nearest_even_nonneg _ _ H1)) as H2.
  destruct (shr_fexp prec emax _ e1 loc_Exact) as [mrs2 e2]. cbn [fst] in H2.
  destruct (shr_m mrs2) as [|p|p]; [reflexivity| |lia].
  now destruct (e2 <=? emax - prec).
Qed.

(** Rounding a non-negative multiple of a power of two gives a double
    that is not NaN and not below zero. *)
Lemma binary_normalize_nonneg (m e : Z) :
  0 <= m -> nonneg_float (binary_normalize prec emax m e false) = true.
Proof.
  intros Hm. destruct m as [|p|p]; [reflexivity| |lia].
  cbn [binary_normalize]. unfold binary_round.
  destruct (shl_align p e _) as [mz ez].
  now apply binary_round_aux_nonneg.
Qed.

(** *** Aligning two mantissas keeps their order *)

Lemma Pos_iter_xO (m d : positive) :
  Zpos (Pos.iter xO m d) = Zpos m * 2 ^ Zpos d.
Proof.
  induction d as [|d IH] using Pos.peano_ind.
  - cbn [Pos.iter]. rewrite Z.pow_1_r. lia.
  - rewrite Pos.iter_succ, Pos2Z.inj_succ, Z.pow_succ_r by lia.
    rewrite Pos2Z.inj_xO, IH. ring.
Qed.

Lemma shl_align_value (m : positive) (e e' : Z) :
  e' <= e -> Zpos (fst (shl_align m e e')) = Zpos m * 2 ^ (e - e').
Proof.
  intros H. unfold shl_align.
  destruct (e' - e) as [|d|d] eqn:E; cbn [fst].
  - replace (e - e') with 0 by lia. rewrite Z.pow_0_r. lia.
  - lia.
  - rewrite Pos_iter_xO. f_equal. f_equal. lia.
Qed.

(** With both mantissas brought to the smaller exponent, the order of
    the two doubles is the order of the signed mantissas. *)
Lemma aligned_order (sx : bool) (mx : positive) (ex : Z)
  (sy : bool) (my : positive) (ey : Z) :
  (F2Q sx mx ex ?= F2Q sy my ey)%Q <> Lt ->
  0 <= cond_Zopp sx (Zpos (fst (shl_align mx ex (Z.min ex ey))))
       - cond_Zopp sy (Zpos (fst (shl_align my ey (Z.min ex ey)))).
Proof.
  rewrite Qcompare_F2Q. set (ez := Z.min ex ey).
  rewrite !shl_align_value by (subst ez; lia).
  intros Hge. apply Z.compare_ge_iff in Hge.
  pose proof (pscale ez ex ltac:(subst ez; lia)) as Px.
  pose proof (pscale ez ey ltac:(subst ez; lia)) as Py.
  pose proof (pscale_pos ez ex) as Wx. pose proof (pscale_pos ez ey) as Wy.
  pose proof (pscale_pos ex ey) as Wxy. pose proof (pscale_pos ey ex) as Wyx.
  assert (Dz : 0 < pden ez) by (unfold pden; apply Z.pow_pos_nonneg; lia).
  assert (Dx : 0 < pden ex) by (unfold pden; apply Z.pow_pos_nonneg; lia).
  assert (Dy : 0 < pden ey) by (unfold pden; apply Z.pow_pos_nonneg; lia).
  assert (Nz : 0 < pnum ez) by (unfold pnum; apply Z.pow_pos_nonneg; lia).
  set (X := cond_Zopp sx (Z.pos mx * 2 ^ (ex - ez))).
  set (Y := cond_Zopp sy (Z.pos my * 2 ^ (ey - ez))).
  set (W := pnum ez * pden ex * pden ey).
  assert (HW : 0 < W) by (subst W; repeat apply Z.mul_pos_pos; assumption).
  assert (HX : X * W = cond_Zopp sx (Z.pos mx) * (pnum ex * pden ey) * pden ez).
  { assert (U : Z.pos mx * 2 ^ (ex - ez) * W
                = Z.pos mx * (pnum ex * pden ey) * pden ez).
    { subst W.
      replace (Z.pos mx * 2 ^ (ex - ez) * (pnum ez * pden ex * pden ey))
        with (Z.pos mx * (pnum ez * pden ex * 2 ^ (ex - ez)) * pden ey)
        by ring.
      rewrite Px. ring. }
    subst X. destruct sx; cbn [cond_Zopp]; rewrite ?Z.mul_opp_l, U;
      reflexivity. }
  assert (HY : Y * W = cond_Zopp sy (Z.pos my) * (pnum ey * pden ex) * pden ez).
  { assert (U : Z.pos my * 2 ^ (ey - ez) * W
                = Z.pos my * (pnum ey * pden ex) * pden ez).
    { subst W.
      replace (Z.pos my * 2 ^ (ey - ez) * (pnum ez * pden ex * pden ey))
        with (Z.pos my * (pnum ez * pden ey * 2 ^ (ey - ez)) * pden ex)
        by ring.
      rewrite Py. ring. }
    subst Y. destruct sy; cbn [cond_Zopp]; rewrite ?Z.mul_opp_l, U;
      reflexivity. }
  assert (HXY : Y * W <= X * W).
  { rewrite HX, HY. apply Z.mul_le_mono_nonneg_r; lia. }
  apply Z.mul_le_mono_pos_r in HXY; [lia | exact HW].
Qed.

(** *** The difference of two ordered doubles *)

(** Subtracting a finite double from one that is at least as large
    gives a double that is not NaN and not below zero. *)
Lemma SFsub_nonneg (x y : spec_float) :
  is_finite_float (VFloat x) = true ->
  is_finite_float (VFloat y) = true ->
  cmp_test Py_GE (xcompare (float_denote x) (float_denote y)) = true ->
  nonneg_float (SFsub prec emax x y) = true.
Proof.
  destruct x as [sx| | |sx mx ex], y as [sy| | |sy my ey]; try discriminate;
    intros _ _; cbn [float_denote xcompare SFsub].
  - intros _. now destruct sx, sy.
  - rewrite Qcompare_0_F2Q. now destruct sy.
  - rewrite Qcompare_F2Q_0. now destruct sx.
  - intros H. apply binary_normalize_nonneg, aligned_order.
    intros E. rewrite E in H. discriminate H.
Qed.

Lemma nonneg_float_ge_zero (f : spec_float) :
  nonneg_float f = true -> py_ge (VFloat f) f0_0 = Ok true.
Proof.
  unfold py_ge, richcmp, f0_0. cbn [denote float_denote].
  destruct f as [s|[|]| |[|] m e]; try discriminate; intros _;
    try reflexivity.
  cbn [float_denote xcompare].
  now rewrite Qcompare_F2Q_0.
Qed.

Lemma is_finite_float_not_nan (v : PyVal) :
  is_finite_float v = true -> not_nan_number v = true.
Proof. now destruct v as [| | |[| | |]|]. Qed.

Lemma is_finite_float_is_float (v : PyVal) :
  is_finite_float v = true -> is_float v = true.
Proof. now destruct v. Qed.

(** X13. When every value is a finite float the spread is a float that is
    not NaN and not below zero: [get_difference() >= 0.0] holds. It
    may be positive infinity, when the subtraction overflows. *)
Theorem float_spread (self : CylinderReadings) :
  all_finite_floats self -> _readings self <> [] ->
  exists f,
    get_difference self = Ok (VFloat f) /\
    nonneg_float f = true /\
    py_ge (VFloat f) f0_0 = Ok true.
Proof.
  intros Hfin Hne.
  assert (Hf := proj1 (Forall_forall _ _) Hfin).
  assert (Hnn : no_nan self).
  { unfold no_nan. apply Forall_forall. intros x Hx.
    apply is_finite_float_not_nan. now apply Hf. }
  assert (Hnum : all_numbers self).
  { unfold all_numbers. apply Forall_forall. intros x Hx.
    apply not_nan_number_isinstance, is_finite_float_not_nan. now apply Hf. }
  destruct (get_difference_sub self Hnum Hne)
    as (h & c & Hh & Hc & Hhin & Hcin & Hd).
  destruct (get_hottest_extremum self h Hnn Hh) as [i Hext].
  pose proof (first_extremum_weak _ _ _ _ c Hext Hcin) as Hge.
  pose proof (Hf h Hhin) as Fh. pose proof (Hf c Hcin) as Fc.
  cbv beta in Fh, Fc.
  destruct (py_sub_floats (value h) (value c)
              (is_finite_float_is_float _ Fh) (is_finite_float_is_float _ Fc))
    as (fh & fc & Eh & Ec & Hsub).
  rewrite Eh, Ec in *.
  exists (SFsub prec emax fh fc).
  assert (Hnonneg : nonneg_float (SFsub prec emax fh fc) = true).
  { apply SFsub_nonneg; try assumption.
    unfold richcmp in Hge. cbn [denote] in Hge.
    now injection Hge. }
  split; [congruence|]. split; [exact Hnonneg|].
  now apply nonneg_float_ge_zero.
Qed.

End FloatSpread.

Lemma float_spread_witness :
  let c := new_CylinderReadings [R 1 f1200_0; R 2 f1250_5; R 3 f1180_0] in
  exists f,
    get_difference c = Ok (VFloat f) /\
    nonneg_float f = true /\
    py_ge (VFloat f) f0_0 = Ok true.
Proof.
  intros c. apply (float_spread c).
  - repeat constructor.
  - discriminate.
Defined.

(* ================================================================== *)
(** ** Further properties of CylinderReadings: NaN among the values *)
(* ================================================================== *)

Section NaN.

(** Nothing compares strictly against NaN, on either side. *)
Lemma richcmp_nan_r (op : cmpop) (a : PyVal) :
  isinstance_int_float a = true -> richcmp op a nan = Ok false.
Proof.
  intros Ha. destruct (isinstance_denote a Ha) as [x Hx].
  rewrite (richcmp_denote op a nan x XNaN Hx eq_refl).
  destruct x, op; reflexivity.
Qed.

Lemma richcmp_true_not_nan (op : cmpop) (a b : PyVal) :
  isinstance_int_float a = true -> isinstance_int_float b = true ->
  richcmp op a b = Ok true -> not_nan_number a = true.
Proof.
  intros Ha Hb.
  destruct (isinstance_denote a Ha) as [x Hx].
  destruct (isinstance_denote b Hb) as [y Hy].
  rewrite (richcmp_denote op a b x y Hx Hy).
  unfold not_nan_number. rewrite Hx.
  destruct x; [|reflexivity|reflexivity].
  destruct op; discriminate.
Qed.

(** A candidate that is not NaN is only ever replaced by a reading
    that is not NaN. *)
Lemma min_max_loop_not_nan (op : cmpop) (it : list CylinderReading) :
  forall m r : CylinderReading,
    not_nan_number (value m) = true ->
    Forall (fun y => isinstance_int_float (value y) = true) it ->
    min_max_loop op value m (value m) it = Ok r ->
    not_nan_number (value r) = true.
Proof.
  induction it as [|y it' IH]; intros m r Hm Hit; cbn [min_max_loop].
  - intros H; now injection H as <-.
  - inversion Hit as [|? ? Hy Hit']; subst.
    destruct (richcmp op (value y) (value m)) as [[|]|e] eqn:E; simpl;
      try discriminate.
    + apply IH; [|exact Hit'].
      eapply richcmp_true_not_nan; [exact Hy| |exact E].
      now apply not_nan_number_isinstance.
    + now apply IH.
Qed.

Variable self : CylinderReadings.
Variable x : CylinderReading.
Variable l : list CylinderReading.
Hypothesis stored : _readings self = x :: l.
Hypothesis numbers : all_numbers self.

(** X14. A NaN in first position masks every other reading: the first
    reading is returned as both the hottest and the coolest, whatever
    follows it, and the spread is NaN. *)
Theorem nan_first_masks :
  value x = nan ->
  get_hottest self = Ok (Some x) /\
  get_coolest self = Ok (Some x) /\
  get_difference self = Ok nan.
Proof.
  intros Hx.
  unfold all_numbers in numbers. rewrite stored in numbers.
  inversion numbers as [|? ? _ Hl]; subst.
  rewrite Forall_forall in Hl.
  assert (Hh : get_hottest self = Ok (Some x)).
  { unfold get_hottest, py_max. rewrite stored.
    cbn [list_truthy negb min_max].
    rewrite min_max_loop_keeps; [reflexivity|].
    intros y Hy. rewrite Hx. apply richcmp_nan_r. now apply Hl. }
  assert (Hc : get_coolest self = Ok (Some x)).
  { unfold get_coolest, py_min. rewrite stored.
    cbn [list_truthy negb min_max].
    rewrite min_max_loop_keeps; [reflexivity|].
    intros y Hy. rewrite Hx. apply richcmp_nan_r. now apply Hl. }
  repeat split; try assumption.
  unfold get_difference. rewrite Hh, Hc. cbn [bind truthy andb getattr_value].
  now rewrite Hx.
Qed.

(** X15. A NaN after a first reading that is not NaN is never picked:
    neither the hottest nor the coolest reading holds NaN then. *)
Theorem nan_later_ignored :
  not_nan_number (value x) = true ->
  (forall r, get_hottest self = Ok (Some r) ->
     not_nan_number (value r) = true) /\
  (forall r, get_coolest self = Ok (Some r) ->
     not_nan_number (value r) = true).
Proof.
  intros Hx.
  unfold all_numbers in numbers. rewrite stored in numbers.
  inversion numbers as [|? ? _ Hl]; subst.
  unfold get_hottest, get_coolest, py_max, py_min. rewrite stored.
  cbn [list_truthy negb min_max]. split; intros r.
  - destruct (min_max_loop Py_GT value x (value x) l) as [h|e] eqn:E;
      [|discriminate].
    intros H; injection H as <-.
    eapply min_max_loop_not_nan; eassumption.
  - destruct (min_max_loop Py_LT value x (value x) l) as [c|e] eqn:E;
      [|discriminate].
    intros H; injection H as <-.
    eapply min_max_loop_not_nan; eassumption.
Qed.

End NaN.

Lemma nan_first_masks_witness :
  let c := new_CylinderReadings [R 1 nan; R 2 f1250_5; R 3 f1180_0] in
  get_hottest c = Ok (Some (R 1 nan)) /\
  get_coolest c = Ok (Some (R 1 nan)) /\
  get_difference c = Ok nan.
Proof.
  intros c.
  apply (nan_first_masks c (R 1 nan) [R 2 f1250_5; R 3 f1180_0]).
  - reflexivity.
  - repeat constructor.
  - reflexivity.
Defined.

Lemma nan_later_ignored_witness :
  let c := new_CylinderReadings [R 1 f1200_0; R 2 nan; R 3 f1180_0] in
  (forall r, get_hottest c = Ok (Some r) ->
     not_nan_number (value r) = true) /\
  (forall r, get_coolest c = Ok (Some r) ->
     not_nan_number (value r) = true).
Proof.
  intros c.
  apply (nan_later_ignored c (R 1 f1200_0) [R 2 nan; R 3 f1180_0]).
  - reflexivity.
  - repeat constructor.
  - reflexivity.
Defined.
